(** * Manifest generators of loopgpt-backend

    A shallow embedding of [scripts/generate_manifest_v2.py] and
    [scripts/generate_manifest_v2_approved.py].

    Both scripts hold two module-level dictionaries, [TOOLS] and
    [DEPRECATED_ALIASES], and one function [generate_manifest] that walks
    them and builds the manifest document.  The function is embedded twice:

    - over immutable JSON-like values ([Py.value]), the manifest being
      threaded through the two loops;
    - over an object store ([Store.heap]) in which dictionaries and lists are
      mutable objects reached through references, so that aliasing between
      the registries and the produced document is visible.

    The second embedding is related to the first by an adequacy lemma. *)

From Stdlib Require Import String ZArith List Bool Lia.
From stdpp Require Import gmap strings list.
Import ListNotations.
Open Scope string_scope.
Open Scope list_scope.

Set Warnings "-register-all".

(** ** Python values, exceptions and dictionaries *)

Module Py.

(** The values that occur in the registries and in the manifest: strings,
    integers, booleans, lists and insertion-ordered dictionaries with
    string keys. *)
Inductive value : Type :=
| VStr (s : string)
| VInt (z : Z)
| VBool (b : bool)
| VList (xs : list value)
| VDict (items : list (string * value)).

(** A dictionary is the list of its items in insertion order. *)
Definition dict : Type := list (string * value).

(** An exception is identified by the name of its class; [arg] is the
    offending key or attribute. *)
Inductive exn : Type :=
| Exn (cls : string) (arg : string).

Definition KeyError (k : string) : exn := Exn "KeyError" k.
Definition TypeError : exn := Exn "TypeError" "".
Definition AttributeError (a : string) : exn := Exn "AttributeError" a.

Inductive result (A : Type) : Type :=
| Ok (a : A)
| Raise (e : exn).
Arguments Ok {A} a.
Arguments Raise {A} e.

Definition bind {A B : Type} (r : result A) (k : A -> result B) : result B :=
  match r with
  | Ok a => k a
  | Raise e => Raise e
  end.

Declare Scope py_scope.
Delimit Scope py_scope with py.
Notation "x <- e ;; k" := (bind e (fun x => k))
  (at level 20, e at level 99, k at level 200) : py_scope.

(** [fails_with cls r]: the call ended by raising an exception of class
    [cls]. *)
Definition fails_with {A : Type} (cls : string) (r : result A) : Prop :=
  exists arg, r = Raise (Exn cls arg).

(** [d.get(k)] *)
Fixpoint dict_get {V : Type} (d : list (string * V)) (k : string) : option V :=
  match d with
  | [] => None
  | (k', v) :: d' => if String.eqb k' k then Some v else dict_get d' k
  end.

(** [d[k] = v]: an existing key keeps its position, a new key goes last. *)
Fixpoint dict_setitem {V : Type} (d : list (string * V)) (k : string) (v : V)
  : list (string * V) :=
  match d with
  | [] => [(k, v)]
  | (k', v') :: d' =>
      if String.eqb k' k then (k', v) :: d'
      else (k', v') :: dict_setitem d' k v
  end.

(** A dictionary display [{k1: v1, ..., kn: vn}] inserts its items from
    left to right. *)
Definition dict_display {V : Type} (kvs : list (string * V)) : list (string * V) :=
  fold_left (fun d kv => dict_setitem d (fst kv) (snd kv)) kvs [].

Definition pydict (kvs : list (string * value)) : value :=
  VDict (dict_display kvs).

Definition dict_items (d : dict) : list (string * value) := d.
Definition dict_keys (d : dict) : list string := map fst d.
Definition len (d : dict) : nat := length d.

(** [obj[k]] for a string key [k]: only dictionaries accept it. *)
Definition getitem (obj : value) (k : string) : result value :=
  match obj with
  | VDict items =>
      match dict_get items k with
      | Some v => Ok v
      | None => Raise (KeyError k)
      end
  | _ => Raise TypeError
  end.

(** [obj[k].append(x)], returning [obj] after the update. *)
Definition append_at (obj : value) (k : string) (x : value) : result value :=
  (target <- getitem obj k ;;
   match target, obj with
   | VList xs, VDict items => Ok (VDict (dict_setitem items k (VList (xs ++ [x]))))
   | _, _ => Raise (AttributeError "append")
   end)%py.

(** Nesting depth of a value: atoms are at depth 0. *)
Fixpoint depth (v : value) : nat :=
  match v with
  | VList xs => S (list_max (map depth xs))
  | VDict its => S (list_max (map (fun kv => depth (snd kv)) its))
  | _ => 0
  end.

(** [for x in xs: body], the loop state being passed from one iteration to
    the next; an exception leaves the loop. *)
Fixpoint for_each {X S : Type} (xs : list X) (body : X -> S -> result S) (s : S)
  : result S :=
  match xs with
  | [] => Ok s
  | x :: xs' => (s' <- body x s ;; for_each xs' body s')%py
  end.

End Py.

(** ** The object store

    Dictionaries and lists are mutable objects living in a store; a variable
    or a container slot holds either an immutable atom or a reference to an
    object.  Statements are computations over the store that may raise. *)

Module Store.
Import Py.

Definition loc : Type := nat.

Inductive ref : Type :=
| RStr (s : string)
| RInt (z : Z)
| RBool (b : bool)
| RObj (l : loc).

Inductive obj : Type :=
| ODict (items : list (string * ref))
| OList (xs : list ref).

Abbreviation heap := (gmap loc obj).

Definition M (A : Type) : Type := heap -> result A * heap.

Definition ret {A : Type} (a : A) : M A := fun h => (Ok a, h).

Definition sbind {A B : Type} (m : M A) (k : A -> M B) : M B :=
  fun h =>
    match m h with
    | (Ok a, h') => k a h'
    | (Raise e, h') => (Raise e, h')
    end.

Declare Scope store_scope.
Delimit Scope store_scope with store.
Notation "x <- e ;; k" := (sbind e (fun x => k))
  (at level 20, e at level 99, k at level 200) : store_scope.
Notation "e ;;; k" := (sbind e (fun _ => k))
  (at level 20, k at level 200) : store_scope.

(** A display or a constructor call makes a new object. *)
Definition alloc (o : obj) : M ref :=
  fun h => let l := fresh (dom h) in (Ok (RObj l), <[l := o]> h).

(** A reference to no object cannot be built by a program; following one is
    reported as an interpreter fault. *)
Definition SystemError : exn := Exn "SystemError" "".

(** [r[k]] *)
Definition getitem (r : ref) (k : string) : M ref :=
  fun h =>
    match r with
    | RObj l =>
        match h !! l with
        | Some (ODict items) =>
            match dict_get items k with
            | Some v => (Ok v, h)
            | None => (Raise (KeyError k), h)
            end
        | Some (OList _) => (Raise TypeError, h)
        | None => (Raise SystemError, h)
        end
    | _ => (Raise TypeError, h)
    end.

(** [r.append(x)]: the list object is updated in place. *)
Definition append (r : ref) (x : ref) : M unit :=
  fun h =>
    match r with
    | RObj l =>
        match h !! l with
        | Some (OList xs) => (Ok tt, <[l := OList (xs ++ [x])]> h)
        | Some (ODict _) => (Raise (AttributeError "append"), h)
        | None => (Raise SystemError, h)
        end
    | _ => (Raise (AttributeError "append"), h)
    end.

(** [r.items()]: the items of a dictionary object, in insertion order. *)
Definition items (r : ref) : M (list (string * ref)) :=
  fun h =>
    match r with
    | RObj l =>
        match h !! l with
        | Some (ODict its) => (Ok its, h)
        | Some (OList _) => (Raise (AttributeError "items"), h)
        | None => (Raise SystemError, h)
        end
    | _ => (Raise (AttributeError "items"), h)
    end.

(** [for x in xs: body] *)
Fixpoint for_each {X : Type} (xs : list X) (body : X -> M unit) : M unit :=
  match xs with
  | [] => ret tt
  | x :: xs' => (body x ;;; for_each xs' body)%store
  end.

(** The value an object graph denotes, read off the store down to depth
    [n]; [None] when the graph is deeper, cyclic or dangling.  It is what
    [json.dump] would serialise. *)
Fixpoint reify (n : nat) (h : heap) (r : ref) {struct n} : option value :=
  match r with
  | RStr s => Some (VStr s)
  | RInt z => Some (VInt z)
  | RBool b => Some (VBool b)
  | RObj l =>
      match n with
      | O => None
      | S n' =>
          match h !! l with
          | Some (ODict its) =>
              VDict <$> mapM (fun kv => pair (fst kv) <$> reify n' h (snd kv)) its
          | Some (OList xs) => VList <$> mapM (reify n' h) xs
          | None => None
          end
      end
  end.

(** Evaluating a literal: every display allocates, innermost first. *)
Fixpoint load (v : value) : M ref :=
  match v with
  | VStr s => ret (RStr s)
  | VInt z => ret (RInt z)
  | VBool b => ret (RBool b)
  | VList xs =>
      (rs <- (fix load_list (vs : list value) : M (list ref) :=
                match vs with
                | [] => ret []
                | v :: vs' => r <- load v ;; rs <- load_list vs' ;; ret (r :: rs)
                end) xs ;;
       alloc (OList rs))%store
  | VDict its =>
      (rs <- (fix load_items (kvs : list (string * value)) : M (list (string * ref)) :=
                match kvs with
                | [] => ret []
                | (k, v) :: kvs' =>
                    r <- load v ;; rs <- load_items kvs' ;; ret ((k, r) :: rs)
                end) its ;;
       alloc (ODict rs))%store
  end.

(** The two inner loops of [load], by themselves. *)
Definition load_list : list value -> M (list ref) :=
  fix load_list (vs : list value) : M (list ref) :=
    match vs with
    | [] => ret []
    | v :: vs' => (r <- load v ;; rs <- load_list vs' ;; ret (r :: rs))%store
    end.

Definition load_items : list (string * value) -> M (list (string * ref)) :=
  fix load_items (kvs : list (string * value)) : M (list (string * ref)) :=
    match kvs with
    | [] => ret []
    | (k, v) :: kvs' =>
        (r <- load v ;; rs <- load_items kvs' ;; ret ((k, r) :: rs))%store
    end.

End Store.

(** ** [scripts/generate_manifest_v2.py] *)

Module GenerateManifestV2.
Import Py.

Definition TOOLS : dict :=
  dict_display
    [ ("user_get_profile", pydict
      [ ("category", VStr "User Profile & Goals");
        ("description", VStr "Use when you need to retrieve the active user's diet preferences, allergies, current goals, or profile information. This is a read-only setup tool that provides context for meal planning and tracking.");
        ("input_schema", pydict
        [ ("type", VStr "object");
          ("properties", pydict
          [ ("user_id", pydict [("type", VStr "string"); ("description", VStr "Unique user identifier")]) ]);
          ("required", VList [VStr "user_id"]) ]) ]);
      ("user_set_weight_goal", pydict
      [ ("category", VStr "User Profile & Goals");
        ("description", VStr "Use when a user expresses a weight goal such as 'I want to lose 5 kg', 'gain muscle', or 'maintain my current weight'. This sets the active goal used by planning and tracking tools. Call this BEFORE creating meal plans.");
        ("input_schema", pydict
        [ ("type", VStr "object");
          ("properties", pydict
          [ ("user_id", pydict [("type", VStr "string"); ("description", VStr "Unique user identifier")]);
            ("target_weight_kg", pydict [("type", VStr "number"); ("description", VStr "Target weight in kilograms")]);
            ("goal_type", pydict
            [ ("type", VStr "string");
              ("enum", VList [VStr "loss"; VStr "gain"; VStr "maintain"]);
              ("description", VStr "Type of weight goal") ]);
            ("target_date", pydict [("type", VStr "string"); ("description", VStr "Optional target date (ISO 8601)")]) ]);
          ("required", VList [VStr "user_id"; VStr "target_weight_kg"; VStr "goal_type"]) ]) ]);
      ("user_update_diet_preferences", pydict
      [ ("category", VStr "User Profile & Goals");
        ("description", VStr "Use when the user specifies diet restrictions or macro preferences such as 'I'm vegan', 'no dairy', 'high protein', or 'keto diet'. This updates their nutrition profile and affects future meal plan generation.");
        ("input_schema", pydict
        [ ("type", VStr "object");
          ("properties", pydict
          [ ("user_id", pydict [("type", VStr "string"); ("description", VStr "Unique user identifier")]);
            ("diet_tags", pydict
            [ ("type", VStr "array");
              ("items", pydict [("type", VStr "string")]);
              ("description", VStr "Diet types (vegan, keto, etc.)") ]);
            ("allergies", pydict
            [ ("type", VStr "array");
              ("items", pydict [("type", VStr "string")]);
              ("description", VStr "Food allergies or exclusions") ]) ]);
          ("required", VList [VStr "user_id"]) ]) ]);
      ("user_get_goals", pydict
      [ ("category", VStr "User Profile & Goals");
        ("description", VStr "Use when you need to retrieve the list of currently active user goals (weight, calories, macros). This is a read-only tool for checking what goals are set.");
        ("input_schema", pydict
        [ ("type", VStr "object");
          ("properties", pydict
          [ ("user_id", pydict [("type", VStr "string"); ("description", VStr "Unique user identifier")]) ]);
          ("required", VList [VStr "user_id"]) ]) ]);
      ("user_reset_profile", pydict
      [ ("category", VStr "User Profile & Goals");
        ("description", VStr "Use when the user says 'start over', 'reset everything', or 'clear my profile'. This resets all stored goals and diet preferences so the user can begin fresh.");
        ("input_schema", pydict
        [ ("type", VStr "object");
          ("properties", pydict
          [ ("user_id", pydict [("type", VStr "string"); ("description", VStr "Unique user identifier")]) ]);
          ("required", VList [VStr "user_id"]) ]) ]);
      ("plan_create_meal_plan", pydict
      [ ("category", VStr "Meal Planning");
        ("description", VStr "Use when a user asks for a daily or weekly meal plan such as 'Make me a 7-day plan', 'I need a meal plan for this week', or 'Create a diet plan for me'. This generates a complete plan aligned with the user's active goals. Call ONLY AFTER a goal has been set with user_set_weight_goal.");
        ("input_schema", pydict
        [ ("type", VStr "object");
          ("properties", pydict
          [ ("user_id", pydict [("type", VStr "string"); ("description", VStr "Unique user identifier")]);
            ("duration_days", pydict
            [ ("type", VStr "integer");
              ("default", VInt 7);
              ("description", VStr "Number of days (1-30)") ]);
            ("calorie_target", pydict [("type", VStr "number"); ("description", VStr "Daily calorie target")]);
            ("diet", pydict [("type", VStr "string"); ("description", VStr "Diet type (vegan, keto, etc.)")]);
            ("meals_per_day", pydict
            [ ("type", VStr "integer");
              ("default", VInt 3);
              ("description", VStr "Number of meals per day") ]);
            ("allergies", pydict
            [ ("type", VStr "array");
              ("items", pydict [("type", VStr "string")]);
              ("description", VStr "Food allergies") ]);
            ("cuisine_preferences", pydict
            [ ("type", VStr "array");
              ("items", pydict [("type", VStr "string")]);
              ("description", VStr "Preferred cuisines") ]) ]);
          ("required", VList [VStr "user_id"; VStr "calorie_target"]) ]) ]);
      ("plan_generate_from_leftovers", pydict
      [ ("category", VStr "Meal Planning");
        ("description", VStr "Use when the user lists ingredients on hand and asks 'What can I make?', 'I have eggs and spinach', or 'Use up my leftovers'. This creates one or more meals from available ingredients using the nutrition database.");
        ("input_schema", pydict
        [ ("type", VStr "object");
          ("properties", pydict
          [ ("user_id", pydict [("type", VStr "string"); ("description", VStr "Unique user identifier")]);
            ("ingredients", pydict
            [ ("type", VStr "array");
              ("items", pydict [("type", VStr "string")]);
              ("description", VStr "Available ingredients") ]) ]);
          ("required", VList [VStr "user_id"; VStr "ingredients"]) ]) ]);
      ("plan_random_meal", pydict
      [ ("category", VStr "Meal Planning");
        ("description", VStr "Use when the user asks for a quick meal suggestion such as 'Give me a healthy dinner idea', 'Suggest a breakfast', or 'Random meal for lunch'. This is a lightweight generator for single meal ideas.");
        ("input_schema", pydict
        [ ("type", VStr "object");
          ("properties", pydict
          [ ("user_id", pydict [("type", VStr "string"); ("description", VStr "Unique user identifier")]);
            ("meal_type", pydict
            [ ("type", VStr "string");
              ("enum", VList [VStr "breakfast"; VStr "lunch"; VStr "dinner"; VStr "snack"]);
              ("description", VStr "Type of meal") ]) ]);
          ("required", VList [VStr "user_id"; VStr "meal_type"]) ]) ]);
      ("plan_customize_meal_plan", pydict
      [ ("category", VStr "Meal Planning");
        ("description", VStr "Use when the user wants to modify an existing plan with feedback such as 'Add more protein', 'Swap dinner 2 for something else', or 'Make it less spicy'. This is a mutation tool that edits active plans.");
        ("input_schema", pydict
        [ ("type", VStr "object");
          ("properties", pydict
          [ ("user_id", pydict [("type", VStr "string"); ("description", VStr "Unique user identifier")]);
            ("plan_id", pydict [("type", VStr "string"); ("description", VStr "Plan identifier to customize")]);
            ("instructions", pydict
            [ ("type", VStr "string");
              ("description", VStr "Natural language modification instructions") ]) ]);
          ("required", VList [VStr "user_id"; VStr "plan_id"; VStr "instructions"]) ]) ]);
      ("plan_get_active_plan", pydict
      [ ("category", VStr "Meal Planning");
        ("description", VStr "Use when you need to fetch the user's current active meal plan for review, reuse, or reference. This is a read-only tool that retrieves stored plans.");
        ("input_schema", pydict
        [ ("type", VStr "object");
          ("properties", pydict
          [ ("user_id", pydict [("type", VStr "string"); ("description", VStr "Unique user identifier")]);
            ("plan_id", pydict [("type", VStr "string"); ("description", VStr "Optional specific plan ID")]) ]);
          ("required", VList [VStr "user_id"]) ]) ]);
      ("nutrition_analyze_food", pydict
      [ ("category", VStr "Nutrition Analysis");
        ("description", VStr "Use when the user lists foods or recipes and asks 'What's in this?', 'How many calories?', 'Analyze this smoothie', or 'Nutrition facts for...'. This returns detailed macros and micros per serving using the 1,000-food database.");
        ("input_schema", pydict
        [ ("type", VStr "object");
          ("properties", pydict
          [ ("ingredients", pydict
            [ ("type", VStr "array");
              ("items", pydict [("type", VStr "string")]);
              ("description", VStr "List of ingredients") ]);
            ("quantity", pydict [("type", VStr "number"); ("description", VStr "Serving quantity")]);
            ("unit", pydict [("type", VStr "string"); ("description", VStr "Unit of measurement")]) ]);
          ("required", VList [VStr "ingredients"]) ]) ]);
      ("nutrition_get_macros", pydict
      [ ("category", VStr "Nutrition Analysis");
        ("description", VStr "Use when you need to summarize total macros from an existing plan or tracker entry. This aggregates calories, protein, carbs, and fat from multiple sources.");
        ("input_schema", pydict
        [ ("type", VStr "object");
          ("properties", pydict
          [ ("source_id", pydict [("type", VStr "string"); ("description", VStr "Plan ID or tracker ID")]);
            ("source_type", pydict
            [ ("type", VStr "string");
              ("enum", VList [VStr "plan"; VStr "tracker"]);
              ("description", VStr "Type of source") ]) ]);
          ("required", VList [VStr "source_id"; VStr "source_type"]) ]) ]);
      ("nutrition_compare_foods", pydict
      [ ("category", VStr "Nutrition Analysis");
        ("description", VStr "Use when the user asks to compare two foods such as 'Chicken vs Tofu', 'Which has more protein?', or 'Compare brown rice and quinoa'. This returns nutritional differences side-by-side.");
        ("input_schema", pydict
        [ ("type", VStr "object");
          ("properties", pydict
          [ ("food_a", pydict [("type", VStr "string"); ("description", VStr "First food name")]);
            ("food_b", pydict [("type", VStr "string"); ("description", VStr "Second food name")]) ]);
          ("required", VList [VStr "food_a"; VStr "food_b"]) ]) ]);
      ("nutrition_get_recommendations", pydict
      [ ("category", VStr "Nutrition Analysis");
        ("description", VStr "Use when the user asks 'What foods are high in iron/protein/fiber?', 'Best sources of vitamin C?', or 'Foods rich in...'. This is a discovery tool that lists foods by nutrient content.");
        ("input_schema", pydict
        [ ("type", VStr "object");
          ("properties", pydict
          [ ("nutrient_name", pydict
            [ ("type", VStr "string");
              ("description", VStr "Nutrient to search for (e.g., 'protein', 'iron', 'vitamin C')") ]) ]);
          ("required", VList [VStr "nutrient_name"]) ]) ]);
      ("tracker_log_meal", pydict
      [ ("category", VStr "Tracking & Progress");
        ("description", VStr "Use when the user records a meal or snack manually such as 'I ate oatmeal for breakfast', 'Log my lunch', or 'I had a protein shake'. This creates a tracker entry for adherence monitoring.");
        ("input_schema", pydict
        [ ("type", VStr "object");
          ("properties", pydict
          [ ("user_id", pydict [("type", VStr "string"); ("description", VStr "Unique user identifier")]);
            ("meal_name", pydict [("type", VStr "string"); ("description", VStr "Name of the meal")]);
            ("ingredients", pydict
            [ ("type", VStr "array");
              ("items", pydict [("type", VStr "string")]);
              ("description", VStr "List of ingredients") ]);
            ("time", pydict [("type", VStr "string"); ("description", VStr "Time of meal (ISO 8601)")]);
            ("calories", pydict [("type", VStr "number"); ("description", VStr "Optional manual calorie entry")]) ]);
          ("required", VList [VStr "user_id"; VStr "meal_name"]) ]) ]);
      ("tracker_log_weight", pydict
      [ ("category", VStr "Tracking & Progress");
        ("description", VStr "Use when the user provides current weight such as 'I weigh 72 kg today', 'My weight is 160 lbs', or 'Log my weight'. This updates the weight trend used by the feedback loop.");
        ("input_schema", pydict
        [ ("type", VStr "object");
          ("properties", pydict
          [ ("user_id", pydict [("type", VStr "string"); ("description", VStr "Unique user identifier")]);
            ("weight_kg", pydict [("type", VStr "number"); ("description", VStr "Weight in kilograms")]);
            ("date", pydict [("type", VStr "string"); ("description", VStr "Date of measurement (ISO 8601)")]);
            ("notes", pydict [("type", VStr "string"); ("description", VStr "Optional notes")]) ]);
          ("required", VList [VStr "user_id"; VStr "weight_kg"]) ]) ]);
      ("tracker_get_progress", pydict
      [ ("category", VStr "Tracking & Progress");
        ("description", VStr "Use when you need to retrieve historical weight and macro trends for charts or summaries. This returns time-series data for visualization.");
        ("input_schema", pydict
        [ ("type", VStr "object");
          ("properties", pydict
          [ ("user_id", pydict [("type", VStr "string"); ("description", VStr "Unique user identifier")]);
            ("timespan_days", pydict
            [ ("type", VStr "integer");
              ("description", VStr "Number of days to retrieve (7, 30, 90)") ]) ]);
          ("required", VList [VStr "user_id"; VStr "timespan_days"]) ]) ]);
      ("tracker_summary", pydict
      [ ("category", VStr "Tracking & Progress");
        ("description", VStr "Use when the user asks 'How am I doing?', 'Show my progress', or 'Weekly summary'. This aggregates macros, adherence, and goal progress for a specified period.");
        ("input_schema", pydict
        [ ("type", VStr "object");
          ("properties", pydict
          [ ("user_id", pydict [("type", VStr "string"); ("description", VStr "Unique user identifier")]);
            ("period", pydict
            [ ("type", VStr "string");
              ("enum", VList [VStr "day"; VStr "week"; VStr "month"]);
              ("description", VStr "Summary period") ]) ]);
          ("required", VList [VStr "user_id"; VStr "period"]) ]) ]);
      ("loop_evaluate_plan", pydict
      [ ("category", VStr "Feedback Loop");
        ("description", VStr "Use when the user asks 'Did I follow the plan?', 'How well did I do?', or 'Evaluate my adherence'. This compares the active plan versus actual tracking data to measure compliance.");
        ("input_schema", pydict
        [ ("type", VStr "object");
          ("properties", pydict
          [ ("user_id", pydict [("type", VStr "string"); ("description", VStr "Unique user identifier")]);
            ("plan_id", pydict [("type", VStr "string"); ("description", VStr "Plan identifier to evaluate")]);
            ("tracker_range", pydict [("type", VStr "string"); ("description", VStr "Date range for tracker data")]) ]);
          ("required", VList [VStr "user_id"; VStr "plan_id"]) ]) ]);
      ("loop_adjust_calories", pydict
      [ ("category", VStr "Feedback Loop");
        ("description", VStr "Use when the user says 'Adjust my meals', 'I didn't lose enough weight', or 'Increase my calories'. This modifies the calorie target or macros for future plans based on results.");
        ("input_schema", pydict
        [ ("type", VStr "object");
          ("properties", pydict
          [ ("user_id", pydict [("type", VStr "string"); ("description", VStr "Unique user identifier")]);
            ("adjustment_factor", pydict
            [ ("type", VStr "number");
              ("description", VStr "Multiplier for adjustment (0.9 = -10%, 1.1 = +10%)") ]);
            ("new_target", pydict
            [ ("type", VStr "number");
              ("description", VStr "Optional explicit new calorie target") ]) ]);
          ("required", VList [VStr "user_id"]) ]) ]);
      ("loop_generate_feedback_report", pydict
      [ ("category", VStr "Feedback Loop");
        ("description", VStr "Use when you need to create a summarized AI feedback report for the user such as 'You hit 85% consistency this week'. This generates human-readable narrative feedback.");
        ("input_schema", pydict
        [ ("type", VStr "object");
          ("properties", pydict
          [ ("user_id", pydict [("type", VStr "string"); ("description", VStr "Unique user identifier")]);
            ("period", pydict
            [ ("type", VStr "string");
              ("description", VStr "Period to summarize (week, month)") ]) ]);
          ("required", VList [VStr "user_id"; VStr "period"]) ]) ]);
      ("loop_predict_outcome", pydict
      [ ("category", VStr "Feedback Loop");
        ("description", VStr "Use when the user asks 'What will I weigh in 2 weeks?', 'Predict my progress', or 'When will I reach my goal?'. This forecasts future progress based on current trend.");
        ("input_schema", pydict
        [ ("type", VStr "object");
          ("properties", pydict
          [ ("user_id", pydict [("type", VStr "string"); ("description", VStr "Unique user identifier")]);
            ("days_ahead", pydict [("type", VStr "integer"); ("description", VStr "Number of days to forecast")]) ]);
          ("required", VList [VStr "user_id"; VStr "days_ahead"]) ]) ]);
      ("loop_reset_cycle", pydict
      [ ("category", VStr "Feedback Loop");
        ("description", VStr "Use when starting a new evaluation cycle. This resets weekly loop data and begins a fresh feedback period.");
        ("input_schema", pydict
        [ ("type", VStr "object");
          ("properties", pydict
          [ ("user_id", pydict [("type", VStr "string"); ("description", VStr "Unique user identifier")]) ]);
          ("required", VList [VStr "user_id"]) ]) ]);
      ("delivery_search_restaurants", pydict
      [ ("category", VStr "Delivery & Integrations");
        ("description", VStr "Use when the user asks for nearby delivery options matching their diet plan such as 'Find vegan restaurants', 'Delivery near me', or 'Where can I order keto food?'. This uses MealMe / DoorDash API.");
        ("input_schema", pydict
        [ ("type", VStr "object");
          ("properties", pydict
          [ ("location", pydict [("type", VStr "string"); ("description", VStr "Address or coordinates")]);
            ("diet_tags", pydict
            [ ("type", VStr "array");
              ("items", pydict [("type", VStr "string")]);
              ("description", VStr "Diet filters (vegan, keto, etc.)") ]) ]);
          ("required", VList [VStr "location"]) ]) ]);
      ("delivery_get_menu", pydict
      [ ("category", VStr "Delivery & Integrations");
        ("description", VStr "Use to fetch the menu for a given restaurant ID. This is a supporting data helper tool.");
        ("input_schema", pydict
        [ ("type", VStr "object");
          ("properties", pydict
          [ ("restaurant_id", pydict
            [ ("type", VStr "string");
              ("description", VStr "Restaurant identifier from search") ]) ]);
          ("required", VList [VStr "restaurant_id"]) ]) ]);
      ("delivery_place_order", pydict
      [ ("category", VStr "Delivery & Integrations");
        ("description", VStr "Use when the user says 'Order my lunch', 'Place this order', or 'Checkout'. This places a food order through partner APIs (Premium feature).");
        ("input_schema", pydict
        [ ("type", VStr "object");
          ("properties", pydict
          [ ("user_id", pydict [("type", VStr "string"); ("description", VStr "Unique user identifier")]);
            ("restaurant_id", pydict [("type", VStr "string"); ("description", VStr "Restaurant identifier")]);
            ("menu_item_id", pydict [("type", VStr "string"); ("description", VStr "Menu item to order")]) ]);
          ("required", VList [VStr "user_id"; VStr "restaurant_id"; VStr "menu_item_id"]) ]) ]);
      ("delivery_track_order", pydict
      [ ("category", VStr "Delivery & Integrations");
        ("description", VStr "Use to check delivery status for a previously placed order. This is an optional B2C tool.");
        ("input_schema", pydict
        [ ("type", VStr "object");
          ("properties", pydict
          [ ("order_id", pydict
            [ ("type", VStr "string");
              ("description", VStr "Order identifier from place_order") ]) ]);
          ("required", VList [VStr "order_id"]) ]) ]);
      ("sys_get_help", pydict
      [ ("category", VStr "System & Support");
        ("description", VStr "Use when the user asks 'What can you do?', 'List all tools', or 'Help me understand your features'. This provides a developer-facing tool list with usage examples.");
        ("input_schema", pydict [("type", VStr "object"); ("properties", pydict [])]) ]);
      ("sys_healthcheck", pydict
      [ ("category", VStr "System & Support");
        ("description", VStr "Use for monitoring or debugging. Returns system status, active manifest version, and database checksum.");
        ("input_schema", pydict [("type", VStr "object"); ("properties", pydict [])]) ]);
      ("sys_debug_tool_choice_log", pydict
      [ ("category", VStr "System & Support");
        ("description", VStr "Use to log tool-selection context for QA and routing accuracy analysis. This is a dev-only tool that tracks which tool was chosen and why.");
        ("input_schema", pydict
        [ ("type", VStr "object");
          ("properties", pydict
          [ ("input", pydict [("type", VStr "string"); ("description", VStr "User's original query")]);
            ("chosen_tool", pydict [("type", VStr "string"); ("description", VStr "Tool that was selected")]);
            ("confidence", pydict [("type", VStr "number"); ("description", VStr "Confidence score (0-1)")]) ]);
          ("required", VList [VStr "input"; VStr "chosen_tool"]) ]) ]) ].

Definition DEPRECATED_ALIASES : dict :=
  dict_display
    [ ("tracker_set_goals", pydict
      [ ("redirect_to", VStr "user_set_weight_goal");
        ("description", VStr "[DEPRECATED] Alias for user_set_weight_goal. Use only if legacy code still calls this name. Will be removed in v2.1.0.");
        ("category", VStr "Deprecated") ]);
      ("tracker_quick_add_calories", pydict
      [ ("redirect_to", VStr "tracker_log_meal");
        ("description", VStr "[DEPRECATED] Alias for tracker_log_meal. Use only if legacy code still calls this name. Will be removed in v2.1.0.");
        ("category", VStr "Deprecated") ]);
      ("get_weight_prefs", pydict
      [ ("redirect_to", VStr "user_get_profile");
        ("description", VStr "[DEPRECATED] Alias for user_get_profile. Use only if legacy code still calls this name. Will be removed in v2.1.0.");
        ("category", VStr "Deprecated") ]);
      ("update_weight_prefs", pydict
      [ ("redirect_to", VStr "user_update_diet_preferences");
        ("description", VStr "[DEPRECATED] Alias for user_update_diet_preferences. Use only if legacy code still calls this name. Will be removed in v2.1.0.");
        ("category", VStr "Deprecated") ]);
      ("generate_week_plan", pydict
      [ ("redirect_to", VStr "plan_create_meal_plan");
        ("description", VStr "[DEPRECATED] Alias for plan_create_meal_plan. Use only if legacy code still calls this name. Will be removed in v2.1.0.");
        ("category", VStr "Deprecated") ]);
      ("recipes_creative_recipe", pydict
      [ ("redirect_to", VStr "plan_generate_from_leftovers");
        ("description", VStr "[DEPRECATED] Alias for plan_generate_from_leftovers. Use only if legacy code still calls this name. Will be removed in v2.1.0.");
        ("category", VStr "Deprecated") ]);
      ("log_meal_plan", pydict
      [ ("redirect_to", VStr "plan_get_active_plan");
        ("description", VStr "[DEPRECATED] Alias for plan_get_active_plan. Use only if legacy code still calls this name. Will be removed in v2.1.0.");
        ("category", VStr "Deprecated") ]);
      ("nutrition_analyze", pydict
      [ ("redirect_to", VStr "nutrition_analyze_food");
        ("description", VStr "[DEPRECATED] Alias for nutrition_analyze_food. Use only if legacy code still calls this name. Will be removed in v2.1.0.");
        ("category", VStr "Deprecated") ]);
      ("normalize_ingredients", pydict
      [ ("redirect_to", VStr "nutrition_get_macros");
        ("description", VStr "[DEPRECATED] Alias for nutrition_get_macros. Use only if legacy code still calls this name. Will be removed in v2.1.0.");
        ("category", VStr "Deprecated") ]);
      ("tracker_log_food", pydict
      [ ("redirect_to", VStr "tracker_log_meal");
        ("description", VStr "[DEPRECATED] Alias for tracker_log_meal. Use only if legacy code still calls this name. Will be removed in v2.1.0.");
        ("category", VStr "Deprecated") ]);
      ("log_weight", pydict
      [ ("redirect_to", VStr "tracker_log_weight");
        ("description", VStr "[DEPRECATED] Alias for tracker_log_weight. Use only if legacy code still calls this name. Will be removed in v2.1.0.");
        ("category", VStr "Deprecated") ]);
      ("weekly_trend", pydict
      [ ("redirect_to", VStr "tracker_get_progress");
        ("description", VStr "[DEPRECATED] Alias for tracker_get_progress. Use only if legacy code still calls this name. Will be removed in v2.1.0.");
        ("category", VStr "Deprecated") ]);
      ("tracker_get_daily_summary", pydict
      [ ("redirect_to", VStr "tracker_summary");
        ("description", VStr "[DEPRECATED] Alias for tracker_summary. Use only if legacy code still calls this name. Will be removed in v2.1.0.");
        ("category", VStr "Deprecated") ]);
      ("evaluate_plan_outcome", pydict
      [ ("redirect_to", VStr "loop_evaluate_plan");
        ("description", VStr "[DEPRECATED] Alias for loop_evaluate_plan. Use only if legacy code still calls this name. Will be removed in v2.1.0.");
        ("category", VStr "Deprecated") ]);
      ("push_plan_feedback", pydict
      [ ("redirect_to", VStr "loop_adjust_calories");
        ("description", VStr "[DEPRECATED] Alias for loop_adjust_calories. Use only if legacy code still calls this name. Will be removed in v2.1.0.");
        ("category", VStr "Deprecated") ]);
      ("mealme_search", pydict
      [ ("redirect_to", VStr "delivery_search_restaurants");
        ("description", VStr "[DEPRECATED] Alias for delivery_search_restaurants. Use only if legacy code still calls this name. Will be removed in v2.1.0.");
        ("category", VStr "Deprecated") ]);
      ("get_delivery_recommendations", pydict
      [ ("redirect_to", VStr "delivery_get_menu");
        ("description", VStr "[DEPRECATED] Alias for delivery_get_menu. Use only if legacy code still calls this name. Will be removed in v2.1.0.");
        ("category", VStr "Deprecated") ]);
      ("mealme_order_plan", pydict
      [ ("redirect_to", VStr "delivery_place_order");
        ("description", VStr "[DEPRECATED] Alias for delivery_place_order. Use only if legacy code still calls this name. Will be removed in v2.1.0.");
        ("category", VStr "Deprecated") ]) ].


(** [generate_manifest()] with the two module-level dictionaries it reads
    as parameters. *)
Definition generate_manifest_on (TOOLS DEPRECATED_ALIASES : dict) : result value :=
  (let manifest := pydict
     [ ("name", VStr "TheLoopGPT.ai");
       ("description", VStr "A comprehensive AI-powered nutrition and wellness platform with adaptive feedback loops. TheLoopGPT.ai provides personalized meal planning, weight tracking, nutrition analysis, and delivery integration across 100+ languages and 25 countries.");
       ("version", VStr "2.0.0");
       ("schema_version", VStr "v1");
       ("namespace", VStr "loopgpt");
       ("contact_email", VStr "support@theloopgpt.ai");
       ("api", pydict
         [ ("type", VStr "openai-mcp");
           ("url", VStr "https://qmagnwxeijctkksqbcqz.supabase.co/functions/v1/mcp-server") ]);
       ("authentication", pydict [("type", VStr "none")]);
       ("tools", VList []) ] in
   (* Add all active tools *)
   manifest <- for_each (dict_items TOOLS) (fun '(name, spec) manifest =>
     category <- getitem spec "category" ;;
     description <- getitem spec "description" ;;
     input_schema <- getitem spec "input_schema" ;;
     let tool := pydict
       [ ("name", VStr name);
         ("category", category);
         ("description", description);
         ("input_schema", input_schema) ] in
     append_at manifest "tools" tool) manifest ;;
   (* Add deprecated aliases *)
   manifest <- for_each (dict_items DEPRECATED_ALIASES) (fun '(name, spec) manifest =>
     category <- getitem spec "category" ;;
     description <- getitem spec "description" ;;
     redirect_to <- getitem spec "redirect_to" ;;
     let tool := pydict
       [ ("name", VStr name);
         ("category", category);
         ("description", description);
         ("redirect_to", redirect_to);
         ("deprecated", VBool true);
         ("input_schema", pydict [("type", VStr "object"); ("properties", pydict [])]) ] in
     append_at manifest "tools" tool) manifest ;;
   Ok manifest)%py.

Definition generate_manifest : result value :=
  generate_manifest_on TOOLS DEPRECATED_ALIASES.

Import Store.

(** The same function over the object store: [TOOLS] and
    [DEPRECATED_ALIASES] refer to the dictionary objects the module-level
    names are bound to. *)
Definition generate_manifest_store (TOOLS DEPRECATED_ALIASES : Store.ref)
  : Store.M Store.ref :=
  (api <- Store.alloc (Store.ODict (dict_display
     [ ("type", Store.RStr "openai-mcp");
       ("url", Store.RStr "https://qmagnwxeijctkksqbcqz.supabase.co/functions/v1/mcp-server") ])) ;;
   authentication <- Store.alloc (Store.ODict (dict_display
     [ ("type", Store.RStr "none") ])) ;;
   tools <- Store.alloc (Store.OList []) ;;
   manifest <- Store.alloc (Store.ODict (dict_display
     [ ("name", Store.RStr "TheLoopGPT.ai");
       ("description", Store.RStr "A comprehensive AI-powered nutrition and wellness platform with adaptive feedback loops. TheLoopGPT.ai provides personalized meal planning, weight tracking, nutrition analysis, and delivery integration across 100+ languages and 25 countries.");
       ("version", Store.RStr "2.0.0");
       ("schema_version", Store.RStr "v1");
       ("namespace", Store.RStr "loopgpt");
       ("contact_email", Store.RStr "support@theloopgpt.ai");
       ("api", api);
       ("authentication", authentication);
       ("tools", tools) ])) ;;
   (* Add all active tools *)
   active <- Store.items TOOLS ;;
   Store.for_each active (fun '(name, spec) =>
     category <- Store.getitem spec "category" ;;
     description <- Store.getitem spec "description" ;;
     input_schema <- Store.getitem spec "input_schema" ;;
     tool <- Store.alloc (Store.ODict (dict_display
       [ ("name", Store.RStr name);
         ("category", category);
         ("description", description);
         ("input_schema", input_schema) ])) ;;
     target <- Store.getitem manifest "tools" ;;
     Store.append target tool) ;;;
   (* Add deprecated aliases *)
   aliases <- Store.items DEPRECATED_ALIASES ;;
   Store.for_each aliases (fun '(name, spec) =>
     category <- Store.getitem spec "category" ;;
     description <- Store.getitem spec "description" ;;
     redirect_to <- Store.getitem spec "redirect_to" ;;
     properties <- Store.alloc (Store.ODict (dict_display [])) ;;
     input_schema <- Store.alloc (Store.ODict (dict_display
       [ ("type", Store.RStr "object");
         ("properties", properties) ])) ;;
     tool <- Store.alloc (Store.ODict (dict_display
       [ ("name", Store.RStr name);
         ("category", category);
         ("description", description);
         ("redirect_to", redirect_to);
         ("deprecated", Store.RBool true);
         ("input_schema", input_schema) ])) ;;
     target <- Store.getitem manifest "tools" ;;
     Store.append target tool) ;;;
   Store.ret manifest)%store.

(** The module body up to the call in [__main__]: the two displays are
    evaluated and bound to [TOOLS] and [DEPRECATED_ALIASES], then
    [generate_manifest()] is called. *)
Definition main : Store.M Store.ref :=
  (tools <- Store.load (VDict TOOLS) ;;
   aliases <- Store.load (VDict DEPRECATED_ALIASES) ;;
   generate_manifest_store tools aliases)%store.

End GenerateManifestV2.

(** ** [scripts/generate_manifest_v2_approved.py] *)

Module GenerateManifestV2Approved.
Import Py.

Definition TOOLS : dict :=
  dict_display
    [ ("user_get_profile", pydict
      [ ("category", VStr "User Profile & Goals");
        ("description", VStr "Use when you need to retrieve the active user's diet preferences, allergies, current goals, or profile information. This is a read-only setup tool that provides context for meal planning and tracking.");
        ("input_schema", pydict
        [ ("type", VStr "object");
          ("properties", pydict
          [ ("user_id", pydict [("type", VStr "string"); ("description", VStr "Unique user identifier")]) ]);
          ("required", VList [VStr "user_id"]) ]) ]);
      ("user_set_weight_goal", pydict
      [ ("category", VStr "User Profile & Goals");
        ("description", VStr "Use when a user expresses a weight goal such as 'I want to lose 5 kg', 'gain muscle', or 'maintain my current weight'. This sets the active goal used by planning and tracking tools. Call this BEFORE creating meal plans.");
        ("input_schema", pydict
        [ ("type", VStr "object");
          ("properties", pydict
          [ ("user_id", pydict [("type", VStr "string"); ("description", VStr "Unique user identifier")]);
            ("target_weight_kg", pydict [("type", VStr "number"); ("description", VStr "Target weight in kilograms")]);
            ("goal_type", pydict
            [ ("type", VStr "string");
              ("enum", VList [VStr "loss"; VStr "gain"; VStr "maintain"]);
              ("description", VStr "Type of weight goal") ]);
            ("target_date", pydict [("type", VStr "string"); ("description", VStr "Optional target date (ISO 8601)")]) ]);
          ("required", VList [VStr "user_id"; VStr "target_weight_kg"; VStr "goal_type"]) ]) ]);
      ("user_update_diet_preferences", pydict
      [ ("category", VStr "User Profile & Goals");
        ("description", VStr "Use when the user specifies diet restrictions or macro preferences such as 'I'm vegan', 'no dairy', 'high protein', or 'keto diet'. This updates their nutrition profile and affects future meal plan generation.");
        ("input_schema", pydict
        [ ("type", VStr "object");
          ("properties", pydict
          [ ("user_id", pydict [("type", VStr "string"); ("description", VStr "Unique user identifier")]);
            ("diet_tags", pydict
            [ ("type", VStr "array");
              ("items", pydict [("type", VStr "string")]);
              ("description", VStr "Diet types (vegan, keto, etc.)") ]);
            ("allergies", pydict
            [ ("type", VStr "array");
              ("items", pydict [("type", VStr "string")]);
              ("description", VStr "Food allergies or exclusions") ]) ]);
          ("required", VList [VStr "user_id"]) ]) ]);
      ("plan_create_meal_plan", pydict
      [ ("category", VStr "Meal Planning");
        ("description", VStr "Use when a user asks for a daily or weekly meal plan such as 'Make me a 7-day plan', 'I need a meal plan for this week', or 'Create a diet plan for me'. This generates a complete plan aligned with the user's active goals. Use only after user_set_weight_goal or when an explicit calorie target is provided.");
        ("input_schema", pydict
        [ ("type", VStr "object");
          ("properties", pydict
          [ ("user_id", pydict [("type", VStr "string"); ("description", VStr "Unique user identifier")]);
            ("duration_days", pydict
            [ ("type", VStr "integer");
              ("default", VInt 7);
              ("description", VStr "Number of days (1-30)") ]);
            ("calorie_target", pydict [("type", VStr "number"); ("description", VStr "Daily calorie target")]);
            ("diet", pydict [("type", VStr "string"); ("description", VStr "Diet type (vegan, keto, etc.)")]);
            ("meals_per_day", pydict
            [ ("type", VStr "integer");
              ("default", VInt 3);
              ("description", VStr "Number of meals per day") ]);
            ("allergies", pydict
            [ ("type", VStr "array");
              ("items", pydict [("type", VStr "string")]);
              ("description", VStr "Food allergies") ]);
            ("cuisine_preferences", pydict
            [ ("type", VStr "array");
              ("items", pydict [("type", VStr "string")]);
              ("description", VStr "Preferred cuisines") ]) ]);
          ("required", VList [VStr "user_id"; VStr "calorie_target"]) ]) ]);
      ("plan_generate_from_leftovers", pydict
      [ ("category", VStr "Meal Planning");
        ("description", VStr "Use when the user lists ingredients on hand and asks 'What can I make?', 'I have eggs and spinach', or 'Use up my leftovers'. This creates one or more meals from available ingredients using the nutrition database.");
        ("input_schema", pydict
        [ ("type", VStr "object");
          ("properties", pydict
          [ ("user_id", pydict [("type", VStr "string"); ("description", VStr "Unique user identifier")]);
            ("ingredients", pydict
            [ ("type", VStr "array");
              ("items", pydict [("type", VStr "string")]);
              ("description", VStr "Available ingredients") ]) ]);
          ("required", VList [VStr "user_id"; VStr "ingredients"]) ]) ]);
      ("plan_random_meal", pydict
      [ ("category", VStr "Meal Planning");
        ("description", VStr "Use when the user asks for a quick meal suggestion such as 'Give me a healthy dinner idea', 'Suggest a breakfast', or 'Random meal for lunch'. This is a lightweight generator for single meal ideas.");
        ("input_schema", pydict
        [ ("type", VStr "object");
          ("properties", pydict
          [ ("user_id", pydict [("type", VStr "string"); ("description", VStr "Unique user identifier")]);
            ("meal_type", pydict
            [ ("type", VStr "string");
              ("enum", VList [VStr "breakfast"; VStr "lunch"; VStr "dinner"; VStr "snack"]);
              ("description", VStr "Type of meal") ]) ]);
          ("required", VList [VStr "user_id"; VStr "meal_type"]) ]) ]);
      ("plan_get_active_plan", pydict
      [ ("category", VStr "Meal Planning");
        ("description", VStr "Use when you need to fetch the user's current active meal plan for review, reuse, or reference. This is a read-only tool that retrieves stored plans.");
        ("input_schema", pydict
        [ ("type", VStr "object");
          ("properties", pydict
          [ ("user_id", pydict [("type", VStr "string"); ("description", VStr "Unique user identifier")]);
            ("plan_id", pydict [("type", VStr "string"); ("description", VStr "Optional specific plan ID")]) ]);
          ("required", VList [VStr "user_id"]) ]) ]);
      ("nutrition_analyze_food", pydict
      [ ("category", VStr "Nutrition Analysis");
        ("description", VStr "Use when the user lists foods or recipes and asks 'What's in this?', 'How many calories?', 'Analyze this smoothie', or 'Nutrition facts for...'. This returns detailed macros and micros per serving using the 1,000-food database.");
        ("input_schema", pydict
        [ ("type", VStr "object");
          ("properties", pydict
          [ ("ingredients", pydict
            [ ("type", VStr "array");
              ("items", pydict [("type", VStr "string")]);
              ("description", VStr "List of ingredients") ]);
            ("quantity", pydict [("type", VStr "number"); ("description", VStr "Serving quantity")]);
            ("unit", pydict [("type", VStr "string"); ("description", VStr "Unit of measurement")]) ]);
          ("required", VList [VStr "ingredients"]) ]) ]);
      ("nutrition_get_macros", pydict
      [ ("category", VStr "Nutrition Analysis");
        ("description", VStr "Use when you need to summarize total macros from an existing plan or tracker entry. This aggregates calories, protein, carbs, and fat from multiple sources.");
        ("input_schema", pydict
        [ ("type", VStr "object");
          ("properties", pydict
          [ ("source_id", pydict [("type", VStr "string"); ("description", VStr "Plan ID or tracker ID")]);
            ("source_type", pydict
            [ ("type", VStr "string");
              ("enum", VList [VStr "plan"; VStr "tracker"]);
              ("description", VStr "Type of source") ]) ]);
          ("required", VList [VStr "source_id"; VStr "source_type"]) ]) ]);
      ("nutrition_compare_foods", pydict
      [ ("category", VStr "Nutrition Analysis");
        ("description", VStr "Use when the user asks to compare two foods such as 'Chicken vs Tofu', 'Which has more protein?', or 'Compare brown rice and quinoa'. This returns nutritional differences side-by-side.");
        ("input_schema", pydict
        [ ("type", VStr "object");
          ("properties", pydict
          [ ("food_a", pydict [("type", VStr "string"); ("description", VStr "First food name")]);
            ("food_b", pydict [("type", VStr "string"); ("description", VStr "Second food name")]) ]);
          ("required", VList [VStr "food_a"; VStr "food_b"]) ]) ]);
      ("nutrition_get_recommendations", pydict
      [ ("category", VStr "Nutrition Analysis");
        ("description", VStr "Use when the user asks 'What foods are high in iron/protein/fiber?', 'Best sources of vitamin C?', or 'Foods rich in...'. This is a discovery tool that lists foods by nutrient content.");
        ("input_schema", pydict
        [ ("type", VStr "object");
          ("properties", pydict
          [ ("nutrient_name", pydict
            [ ("type", VStr "string");
              ("description", VStr "Nutrient to search for (e.g., 'protein', 'iron', 'vitamin C')") ]) ]);
          ("required", VList [VStr "nutrient_name"]) ]) ]);
      ("tracker_log_meal", pydict
      [ ("category", VStr "Tracking & Progress");
        ("description", VStr "Use when the user records a meal or snack manually such as 'I ate oatmeal for breakfast', 'Log my lunch', or 'I had a protein shake'. This creates a tracker entry for adherence monitoring.");
        ("input_schema", pydict
        [ ("type", VStr "object");
          ("properties", pydict
          [ ("user_id", pydict [("type", VStr "string"); ("description", VStr "Unique user identifier")]);
            ("meal_name", pydict [("type", VStr "string"); ("description", VStr "Name of the meal")]);
            ("ingredients", pydict
            [ ("type", VStr "array");
              ("items", pydict [("type", VStr "string")]);
              ("description", VStr "List of ingredients") ]);
            ("time", pydict [("type", VStr "string"); ("description", VStr "Time of meal (ISO 8601)")]);
            ("calories", pydict [("type", VStr "number"); ("description", VStr "Optional manual calorie entry")]) ]);
          ("required", VList [VStr "user_id"; VStr "meal_name"]) ]) ]);
      ("tracker_log_weight", pydict
      [ ("category", VStr "Tracking & Progress");
        ("description", VStr "Use when the user provides current weight such as 'I weigh 72 kg today', 'My weight is 160 lbs', or 'Log my weight'. This updates the weight trend used by the feedback loop.");
        ("input_schema", pydict
        [ ("type", VStr "object");
          ("properties", pydict
          [ ("user_id", pydict [("type", VStr "string"); ("description", VStr "Unique user identifier")]);
            ("weight_kg", pydict [("type", VStr "number"); ("description", VStr "Weight in kilograms")]);
            ("date", pydict [("type", VStr "string"); ("description", VStr "Date of measurement (ISO 8601)")]);
            ("notes", pydict [("type", VStr "string"); ("description", VStr "Optional notes")]) ]);
          ("required", VList [VStr "user_id"; VStr "weight_kg"]) ]) ]);
      ("tracker_get_progress", pydict
      [ ("category", VStr "Tracking & Progress");
        ("description", VStr "Use when you need to retrieve historical weight and macro trends for charts or summaries. This returns time-series data for visualization.");
        ("input_schema", pydict
        [ ("type", VStr "object");
          ("properties", pydict
          [ ("user_id", pydict [("type", VStr "string"); ("description", VStr "Unique user identifier")]);
            ("timespan_days", pydict
            [ ("type", VStr "integer");
              ("description", VStr "Number of days to retrieve (7, 30, 90)") ]) ]);
          ("required", VList [VStr "user_id"; VStr "timespan_days"]) ]) ]);
      ("tracker_summary", pydict
      [ ("category", VStr "Tracking & Progress");
        ("description", VStr "Use when the user asks 'How am I doing?', 'Show my progress', or 'Weekly summary'. This aggregates macros, adherence, and goal progress for a specified period. Prefer tracker_summary for 'How am I doing?'; use loop_evaluate_plan only when the user mentions comparing plan vs actuals.");
        ("input_schema", pydict
        [ ("type", VStr "object");
          ("properties", pydict
          [ ("user_id", pydict [("type", VStr "string"); ("description", VStr "Unique user identifier")]);
            ("period", pydict
            [ ("type", VStr "string");
              ("enum", VList [VStr "day"; VStr "week"; VStr "month"]);
              ("description", VStr "Summary period") ]) ]);
          ("required", VList [VStr "user_id"; VStr "period"]) ]) ]);
      ("loop_evaluate_plan", pydict
      [ ("category", VStr "Feedback Loop");
        ("description", VStr "Use when the user asks 'Did I follow the plan?', 'How well did I do?', or 'Evaluate my adherence'. This compares the active plan versus actual tracking data to measure compliance. Use only when the user mentions comparing plan vs actuals.");
        ("input_schema", pydict
        [ ("type", VStr "object");
          ("properties", pydict
          [ ("user_id", pydict [("type", VStr "string"); ("description", VStr "Unique user identifier")]);
            ("plan_id", pydict [("type", VStr "string"); ("description", VStr "Plan identifier to evaluate")]);
            ("tracker_range", pydict [("type", VStr "string"); ("description", VStr "Date range for tracker data")]) ]);
          ("required", VList [VStr "user_id"; VStr "plan_id"]) ]) ]);
      ("loop_adjust_calories", pydict
      [ ("category", VStr "Feedback Loop");
        ("description", VStr "Use when the user says 'Adjust my meals', 'I didn't lose enough weight', or 'Increase my calories'. This modifies the calorie target or macros for future plans based on results. Use after loop_evaluate_plan or when the user explicitly asks to change targets.");
        ("input_schema", pydict
        [ ("type", VStr "object");
          ("properties", pydict
          [ ("user_id", pydict [("type", VStr "string"); ("description", VStr "Unique user identifier")]);
            ("adjustment_factor", pydict
            [ ("type", VStr "number");
              ("description", VStr "Multiplier for adjustment (0.9 = -10%, 1.1 = +10%)") ]);
            ("new_target", pydict
            [ ("type", VStr "number");
              ("description", VStr "Optional explicit new calorie target") ]) ]);
          ("required", VList [VStr "user_id"]) ]) ]);
      ("loop_predict_outcome", pydict
      [ ("category", VStr "Feedback Loop");
        ("description", VStr "Use when the user asks 'What will I weigh in 2 weeks?', 'Predict my progress', or 'When will I reach my goal?'. This forecasts future progress based on current trend.");
        ("input_schema", pydict
        [ ("type", VStr "object");
          ("properties", pydict
          [ ("user_id", pydict [("type", VStr "string"); ("description", VStr "Unique user identifier")]);
            ("days_ahead", pydict [("type", VStr "integer"); ("description", VStr "Number of days to forecast")]) ]);
          ("required", VList [VStr "user_id"; VStr "days_ahead"]) ]) ]);
      ("delivery_search_restaurants", pydict
      [ ("category", VStr "Delivery & Integrations");
        ("description", VStr "Use when the user asks for nearby delivery options matching their diet plan such as 'Find vegan restaurants', 'Delivery near me', or 'Where can I order keto food?'. This uses MealMe / DoorDash API.");
        ("input_schema", pydict
        [ ("type", VStr "object");
          ("properties", pydict
          [ ("location", pydict [("type", VStr "string"); ("description", VStr "Address or coordinates")]);
            ("diet_tags", pydict
            [ ("type", VStr "array");
              ("items", pydict [("type", VStr "string")]);
              ("description", VStr "Diet filters (vegan, keto, etc.)") ]) ]);
          ("required", VList [VStr "location"]) ]) ]);
      ("delivery_get_menu", pydict
      [ ("category", VStr "Delivery & Integrations");
        ("description", VStr "Supporting tool. Only call when another tool's output requests a menu fetch. Use to fetch the menu for a given restaurant ID.");
        ("input_schema", pydict
        [ ("type", VStr "object");
          ("properties", pydict
          [ ("restaurant_id", pydict
            [ ("type", VStr "string");
              ("description", VStr "Restaurant identifier from search") ]) ]);
          ("required", VList [VStr "restaurant_id"]) ]) ]);
      ("delivery_place_order", pydict
      [ ("category", VStr "Delivery & Integrations");
        ("description", VStr "Use when the user says 'Order my lunch', 'Place this order', or 'Checkout'. This places a food order through partner APIs (Premium feature).");
        ("input_schema", pydict
        [ ("type", VStr "object");
          ("properties", pydict
          [ ("user_id", pydict [("type", VStr "string"); ("description", VStr "Unique user identifier")]);
            ("restaurant_id", pydict [("type", VStr "string"); ("description", VStr "Restaurant identifier")]);
            ("menu_item_id", pydict [("type", VStr "string"); ("description", VStr "Menu item to order")]) ]);
          ("required", VList [VStr "user_id"; VStr "restaurant_id"; VStr "menu_item_id"]) ]) ]);
      ("sys_get_help", pydict
      [ ("category", VStr "System & Support");
        ("description", VStr "Developer-only; do not call in normal user flows. Use when the user asks 'What can you do?', 'List all tools', or 'Help me understand your features'. This provides a developer-facing tool list with usage examples.");
        ("input_schema", pydict [("type", VStr "object"); ("properties", pydict [])]) ]);
      ("sys_healthcheck", pydict
      [ ("category", VStr "System & Support");
        ("description", VStr "Developer-only; do not call in normal user flows. Use for monitoring or debugging. Returns system status, active manifest version, and database checksum.");
        ("input_schema", pydict [("type", VStr "object"); ("properties", pydict [])]) ]);
      ("sys_debug_tool_choice_log", pydict
      [ ("category", VStr "System & Support");
        ("description", VStr "Developer-only; do not call in normal user flows. Use to log tool-selection context for QA and routing accuracy analysis. This is a dev-only tool that tracks which tool was chosen and why.");
        ("input_schema", pydict
        [ ("type", VStr "object");
          ("properties", pydict
          [ ("input", pydict [("type", VStr "string"); ("description", VStr "User's original query")]);
            ("chosen_tool", pydict [("type", VStr "string"); ("description", VStr "Tool that was selected")]);
            ("confidence", pydict [("type", VStr "number"); ("description", VStr "Confidence score (0-1)")]) ]);
          ("required", VList [VStr "input"; VStr "chosen_tool"]) ]) ]) ].

Definition DEPRECATED_ALIASES : dict :=
  dict_display
    [ ("set_weight_goal", pydict
      [ ("redirect_to", VStr "user_set_weight_goal");
        ("description", VStr "[DEPRECATED] Alias for user_set_weight_goal. Use only if legacy code still calls this name. Will be removed in v2.1.0.");
        ("category", VStr "Deprecated") ]);
      ("tracker_set_goals", pydict
      [ ("redirect_to", VStr "user_set_weight_goal");
        ("description", VStr "[DEPRECATED] Alias for user_set_weight_goal. Use only if legacy code still calls this name. Will be removed in v2.1.0.");
        ("category", VStr "Deprecated") ]);
      ("get_user_profile", pydict
      [ ("redirect_to", VStr "user_get_profile");
        ("description", VStr "[DEPRECATED] Alias for user_get_profile. Use only if legacy code still calls this name. Will be removed in v2.1.0.");
        ("category", VStr "Deprecated") ]);
      ("update_diet_preferences", pydict
      [ ("redirect_to", VStr "user_update_diet_preferences");
        ("description", VStr "[DEPRECATED] Alias for user_update_diet_preferences. Use only if legacy code still calls this name. Will be removed in v2.1.0.");
        ("category", VStr "Deprecated") ]);
      ("create_meal_plan", pydict
      [ ("redirect_to", VStr "plan_create_meal_plan");
        ("description", VStr "[DEPRECATED] Alias for plan_create_meal_plan. Use only if legacy code still calls this name. Will be removed in v2.1.0.");
        ("category", VStr "Deprecated") ]);
      ("generate_recipes", pydict
      [ ("redirect_to", VStr "plan_generate_from_leftovers");
        ("description", VStr "[DEPRECATED] Alias for plan_generate_from_leftovers. Use only if legacy code still calls this name. Will be removed in v2.1.0.");
        ("category", VStr "Deprecated") ]);
      ("random_meal", pydict
      [ ("redirect_to", VStr "plan_random_meal");
        ("description", VStr "[DEPRECATED] Alias for plan_random_meal. Use only if legacy code still calls this name. Will be removed in v2.1.0.");
        ("category", VStr "Deprecated") ]);
      ("nutrition_analyze", pydict
      [ ("redirect_to", VStr "nutrition_analyze_food");
        ("description", VStr "[DEPRECATED] Alias for nutrition_analyze_food. Use only if legacy code still calls this name. Will be removed in v2.1.0.");
        ("category", VStr "Deprecated") ]);
      ("get_weight_history", pydict
      [ ("redirect_to", VStr "tracker_get_progress");
        ("description", VStr "[DEPRECATED] Alias for tracker_get_progress. Use only if legacy code still calls this name. Will be removed in v2.1.0.");
        ("category", VStr "Deprecated") ]);
      ("get_weight_trend", pydict
      [ ("redirect_to", VStr "tracker_get_progress");
        ("description", VStr "[DEPRECATED] Alias for tracker_get_progress. Use only if legacy code still calls this name. Will be removed in v2.1.0.");
        ("category", VStr "Deprecated") ]);
      ("order_meal_delivery", pydict
      [ ("redirect_to", VStr "delivery_place_order");
        ("description", VStr "[DEPRECATED] Alias for delivery_place_order. Use only if legacy code still calls this name. Will be removed in v2.1.0.");
        ("category", VStr "Deprecated") ]);
      ("mealme_search", pydict
      [ ("redirect_to", VStr "delivery_search_restaurants");
        ("description", VStr "[DEPRECATED] Alias for delivery_search_restaurants. Use only if legacy code still calls this name. Will be removed in v2.1.0.");
        ("category", VStr "Deprecated") ]) ].


(** [generate_manifest()] with the two module-level dictionaries it reads
    as parameters. *)
Definition generate_manifest_on (TOOLS DEPRECATED_ALIASES : dict) : result value :=
  (let manifest := pydict
     [ ("name", VStr "TheLoopGPT.ai");
       ("description", VStr "A comprehensive AI-powered nutrition and wellness platform with adaptive feedback loops. TheLoopGPT.ai provides personalized meal planning, weight tracking, nutrition analysis, and delivery integration across 100+ languages and 25 countries.");
       ("version", VStr "2.0.0");
       ("schema_version", VStr "v1");
       ("namespace", VStr "loopgpt");
       ("contact_email", VStr "support@theloopgpt.ai");
       ("api", pydict
         [ ("type", VStr "openai-mcp");
           ("url", VStr "https://qmagnwxeijctkksqbcqz.supabase.co/functions/v1/mcp-server") ]);
       ("authentication", pydict [("type", VStr "none")]);
       ("tools", VList []) ] in
   (* Add all active tools *)
   manifest <- for_each (dict_items TOOLS) (fun '(name, spec) manifest =>
     category <- getitem spec "category" ;;
     description <- getitem spec "description" ;;
     input_schema <- getitem spec "input_schema" ;;
     let tool := pydict
       [ ("name", VStr name);
         ("category", category);
         ("description", description);
         ("input_schema", input_schema) ] in
     append_at manifest "tools" tool) manifest ;;
   (* Add deprecated aliases *)
   manifest <- for_each (dict_items DEPRECATED_ALIASES) (fun '(name, spec) manifest =>
     category <- getitem spec "category" ;;
     description <- getitem spec "description" ;;
     redirect_to <- getitem spec "redirect_to" ;;
     let tool := pydict
       [ ("name", VStr name);
         ("category", category);
         ("description", description);
         ("redirect_to", redirect_to);
         ("deprecated", VBool true);
         ("input_schema", pydict [("type", VStr "object"); ("properties", pydict [])]) ] in
     append_at manifest "tools" tool) manifest ;;
   Ok manifest)%py.

Definition generate_manifest : result value :=
  generate_manifest_on TOOLS DEPRECATED_ALIASES.

Import Store.

(** The same function over the object store: [TOOLS] and
    [DEPRECATED_ALIASES] refer to the dictionary objects the module-level
    names are bound to. *)
Definition generate_manifest_store (TOOLS DEPRECATED_ALIASES : Store.ref)
  : Store.M Store.ref :=
  (api <- Store.alloc (Store.ODict (dict_display
     [ ("type", Store.RStr "openai-mcp");
       ("url", Store.RStr "https://qmagnwxeijctkksqbcqz.supabase.co/functions/v1/mcp-server") ])) ;;
   authentication <- Store.alloc (Store.ODict (dict_display
     [ ("type", Store.RStr "none") ])) ;;
   tools <- Store.alloc (Store.OList []) ;;
   manifest <- Store.alloc (Store.ODict (dict_display
     [ ("name", Store.RStr "TheLoopGPT.ai");
       ("description", Store.RStr "A comprehensive AI-powered nutrition and wellness platform with adaptive feedback loops. TheLoopGPT.ai provides personalized meal planning, weight tracking, nutrition analysis, and delivery integration across 100+ languages and 25 countries.");
       ("version", Store.RStr "2.0.0");
       ("schema_version", Store.RStr "v1");
       ("namespace", Store.RStr "loopgpt");
       ("contact_email", Store.RStr "support@theloopgpt.ai");
       ("api", api);
       ("authentication", authentication);
       ("tools", tools) ])) ;;
   (* Add all active tools *)
   active <- Store.items TOOLS ;;
   Store.for_each active (fun '(name, spec) =>
     category <- Store.getitem spec "category" ;;
     description <- Store.getitem spec "description" ;;
     input_schema <- Store.getitem spec "input_schema" ;;
     tool <- Store.alloc (Store.ODict (dict_display
       [ ("name", Store.RStr name);
         ("category", category);
         ("description", description);
         ("input_schema", input_schema) ])) ;;
     target <- Store.getitem manifest "tools" ;;
     Store.append target tool) ;;;
   (* Add deprecated aliases *)
   aliases <- Store.items DEPRECATED_ALIASES ;;
   Store.for_each aliases (fun '(name, spec) =>
     category <- Store.getitem spec "category" ;;
     description <- Store.getitem spec "description" ;;
     redirect_to <- Store.getitem spec "redirect_to" ;;
     properties <- Store.alloc (Store.ODict (dict_display [])) ;;
     input_schema <- Store.alloc (Store.ODict (dict_display
       [ ("type", Store.RStr "object");
         ("properties", properties) ])) ;;
     tool <- Store.alloc (Store.ODict (dict_display
       [ ("name", Store.RStr name);
         ("category", category);
         ("description", description);
         ("redirect_to", redirect_to);
         ("deprecated", Store.RBool true);
         ("input_schema", input_schema) ])) ;;
     target <- Store.getitem manifest "tools" ;;
     Store.append target tool) ;;;
   Store.ret manifest)%store.

(** The module body up to the call in [__main__]: the two displays are
    evaluated and bound to [TOOLS] and [DEPRECATED_ALIASES], then
    [generate_manifest()] is called. *)
Definition main : Store.M Store.ref :=
  (tools <- Store.load (VDict TOOLS) ;;
   aliases <- Store.load (VDict DEPRECATED_ALIASES) ;;
   generate_manifest_store tools aliases)%store.

End GenerateManifestV2Approved.

(** ** Reading a manifest document *)

Module Manifest.
Import Py.

(** [doc["tools"]] as a list of entries. *)
Definition doc_tools (doc : value) : option (list value) :=
  match getitem doc "tools" with
  | Ok (VList entries) => Some entries
  | _ => None
  end.

(** [entry["name"]] *)
Definition entry_name (entry : value) : option string :=
  match getitem entry "name" with
  | Ok (VStr s) => Some s
  | _ => None
  end.

(** [entry["redirect_to"]], when it is a string. *)
Definition entry_redirect (entry : value) : option string :=
  match getitem entry "redirect_to" with
  | Ok (VStr s) => Some s
  | _ => None
  end.

(** ["deprecated" in entry] *)
Definition has_deprecated_field (entry : value) : bool :=
  match getitem entry "deprecated" with
  | Ok _ => true
  | Raise _ => false
  end.

(** [entry.get("deprecated") is True] *)
Definition is_deprecated (entry : value) : bool :=
  match getitem entry "deprecated" with
  | Ok (VBool true) => true
  | _ => false
  end.

(** The placeholder schema of an alias entry. *)
Definition empty_object_schema : value :=
  pydict [("type", VStr "object"); ("properties", pydict [])].

Definition is_nonempty_string (v : value) : bool :=
  match v with
  | VStr s => negb (String.eqb s "")
  | _ => false
  end.

(** The names of all entries of a document, in order; [None] when an entry
    has no string name. *)
Definition tool_names (doc : value) : option (list string) :=
  match doc_tools doc with
  | Some entries => mapM entry_name entries
  | None => None
  end.

(** Every alias entry redirects to the name of an active entry of the same
    list of entries. *)
Definition redirects_resolve (entries : list value) : bool :=
  forallb
    (fun e =>
       negb (is_deprecated e) ||
       match entry_redirect e with
       | Some target =>
           existsb
             (fun a => negb (is_deprecated a) &&
                       bool_decide (entry_name a = Some target))
             entries
       | None => false
       end)
    entries.

(** A schema lists as required only parameters it declares:
    every element of [schema["required"]] (when present) is a string that is
    a key of [schema["properties"]]. *)
Definition schema_well_formed (schema : value) : bool :=
  match getitem schema "required" with
  | Ok (VList required) =>
      match getitem schema "properties" with
      | Ok (VDict properties) =>
          forallb
            (fun r =>
               match r with
               | VStr p => existsb (String.eqb p) (dict_keys properties)
               | _ => false
               end)
            required
      | _ => false
      end
  | Ok _ => false
  | Raise _ => true
  end.

(** Every required parameter of a schema is one it declares. *)
Definition required_declared (schema : value) : Prop :=
  forall v, getitem schema "required" = Ok v ->
    exists required properties,
      v = VList required /\
      getitem schema "properties" = Ok (VDict properties) /\
      forall r, In r required ->
        exists p, r = VStr p /\ In p (dict_keys properties).

Definition registry_schemas_well_formed (tools : dict) : bool :=
  forallb
    (fun kv =>
       match getitem (snd kv) "input_schema" with
       | Ok schema => schema_well_formed schema
       | Raise _ => false
       end)
    (dict_items tools).

(** The metadata fields of a document. *)
Definition metadata_keys : list string :=
  ["name"; "description"; "version"; "schema_version"; "namespace";
   "contact_email"; "api"; "authentication"].

End Manifest.

(** ** The two loops in isolation

    What one iteration adds to [manifest["tools"]], and the document as a
    function of the entries; [generate_manifest_on] is shown below to be
    their composition. *)

Module Closed.
Import Py.

Fixpoint map_result {X Y : Type} (f : X -> result Y) (xs : list X)
  : result (list Y) :=
  match xs with
  | [] => Ok []
  | x :: xs' => (y <- f x ;; ys <- map_result f xs' ;; Ok (y :: ys))%py
  end.

Definition active_entry (item : string * value) : result value :=
  (let '(name, spec) := item in
   category <- getitem spec "category" ;;
   description <- getitem spec "description" ;;
   input_schema <- getitem spec "input_schema" ;;
   Ok (VDict [ ("name", VStr name);
               ("category", category);
               ("description", description);
               ("input_schema", input_schema) ]))%py.

Definition alias_entry (item : string * value) : result value :=
  (let '(name, spec) := item in
   category <- getitem spec "category" ;;
   description <- getitem spec "description" ;;
   redirect_to <- getitem spec "redirect_to" ;;
   Ok (VDict [ ("name", VStr name);
               ("category", category);
               ("description", description);
               ("redirect_to", redirect_to);
               ("deprecated", VBool true);
               ("input_schema", Manifest.empty_object_schema) ]))%py.

(** The items of the manifest before the loops run. *)
Definition manifest_head : dict :=
  match GenerateManifestV2.generate_manifest_on [] [] with
  | Ok (VDict items) => items
  | _ => []
  end.

Definition manifest_of (entries : list value) : value :=
  VDict (dict_setitem manifest_head "tools" (VList entries)).

Definition compile (tools aliases : dict) : result value :=
  (active <- map_result active_entry (dict_items tools) ;;
   deprecated <- map_result alias_entry (dict_items aliases) ;;
   Ok (manifest_of (active ++ deprecated)))%py.

(** A registry entry has the fields its loop reads. *)
Definition has_fields (fields : list string) (spec : value) : bool :=
  forallb
    (fun k => match getitem spec k with Ok _ => true | Raise _ => false end)
    fields.

Definition active_fields : list string :=
  ["category"; "description"; "input_schema"].

Definition alias_fields : list string :=
  ["category"; "description"; "redirect_to"].

End Closed.

(** ** Example registries *)

Module Examples.
Import Py.

Definition a_spec : value :=
  pydict [ ("category", VStr "Demo");
           ("description", VStr "an active tool");
           ("input_schema", pydict
             [ ("type", VStr "object");
               ("properties", pydict [("q", pydict [("type", VStr "string")])]);
               ("required", VList [VStr "q"]) ]) ].

Definition alias_to (target : string) : value :=
  pydict [ ("redirect_to", VStr target);
           ("description", VStr "[DEPRECATED]");
           ("category", VStr "Deprecated") ].

(** One active tool ["a"] and one alias ["legacy_a"] of it. *)
Definition one_tool : dict := dict_display [("a", a_spec)].
Definition one_alias : dict := dict_display [("legacy_a", alias_to "a")].

(** An alias that carries the name of the active tool. *)
Definition clashing_alias : dict := dict_display [("a", alias_to "a")].

(** An alias whose target is not an active tool. *)
Definition no_tools : dict := dict_display [].
Definition dangling_alias : dict := dict_display [("x", alias_to "nonexistent")].

(** An alias whose target is the empty string. *)
Definition blank_alias : dict := dict_display [("x", alias_to "")].

(** A store holding [one_tool] and [one_alias], as left by evaluating the
    two displays, and the references to them. *)
Definition loaded : result (Store.ref * Store.ref) * Store.heap :=
  Store.sbind (Store.load (VDict one_tool)) (fun t =>
  Store.sbind (Store.load (VDict one_alias)) (fun a =>
  Store.ret (t, a))) ∅.

Definition loaded_heap : Store.heap := snd loaded.

Definition loaded_tools : Store.ref :=
  match fst loaded with Ok (t, _) => t | Raise _ => Store.RInt 0 end.

Definition loaded_aliases : Store.ref :=
  match fst loaded with Ok (_, a) => a | Raise _ => Store.RInt 0 end.

(** Another store holding the same two registries, the aliases having been
    evaluated first. *)
Definition reloaded : result (Store.ref * Store.ref) * Store.heap :=
  Store.sbind (Store.load (VDict one_alias)) (fun a =>
  Store.sbind (Store.load (VDict one_tool)) (fun t =>
  Store.ret (t, a))) ∅.

Definition reloaded_heap : Store.heap := snd reloaded.

Definition reloaded_tools : Store.ref :=
  match fst reloaded with Ok (t, _) => t | Raise _ => Store.RInt 0 end.

Definition reloaded_aliases : Store.ref :=
  match fst reloaded with Ok (_, a) => a | Raise _ => Store.RInt 0 end.

End Examples.

(** ** Both scripts *)

Module Scripts.
Import Py.

(** The compile operation of each script. *)
Definition compilers : list (dict -> dict -> result value) :=
  [ GenerateManifestV2.generate_manifest_on;
    GenerateManifestV2Approved.generate_manifest_on ].

(** The built-in active-tool registry of each script. *)
Definition builtin_tools : list dict :=
  [ GenerateManifestV2.TOOLS; GenerateManifestV2Approved.TOOLS ].

(** What each script's [generate_manifest()] returns. *)
Definition builtin_runs : list (result value) :=
  [ GenerateManifestV2.generate_manifest;
    GenerateManifestV2Approved.generate_manifest ].

(** The same over the object store. *)
Definition store_compilers : list (Store.ref -> Store.ref -> Store.M Store.ref) :=
  [ GenerateManifestV2.generate_manifest_store;
    GenerateManifestV2Approved.generate_manifest_store ].

End Scripts.

(** ** Relating a run over the store to the value-level function *)

Module Frame.
Import Py Store.

(** The items of a dictionary object denote the items of a value. *)
Definition items_denote (n : nat) (h : heap)
    (its : list (string * ref)) (itsv : list (string * value)) : Prop :=
  Forall2 (fun kr kv => fst kr = fst kv /\ reify n h (snd kr) = Some (snd kv))
          its itsv.

(** The state of the two loops: every object of [base] is still there, and
    the list object at [lt] holds references to the entries [accv] built so
    far, each readable without going through [lt]. *)
Definition loop_inv (base : heap) (n : nat) (lt : loc)
    (h : heap) (accv : list value) : Prop :=
  base ⊆ h /\
  exists acc,
    h !! lt = Some (OList acc) /\
    Forall2 (fun r v => reify (3 + n) (delete lt h) r = Some v) acc accv.

(** One iteration [body] does over the store what [entry] does over
    values, and appends the entry. *)
Definition body_spec (base : heap) (n : nat) (lt : loc)
    (entry : string * value -> result value)
    (body : string * ref -> M unit) : Prop :=
  forall h accv name spec specv,
    loop_inv base n lt h accv ->
    reify n base spec = Some specv ->
    match entry (name, specv) with
    | Ok ev =>
        exists h', body (name, spec) h = (Ok tt, h') /\
                   loop_inv base n lt h' (accv ++ [ev])
    | Raise e =>
        exists h', body (name, spec) h = (Raise e, h') /\
                   loop_inv base n lt h' accv
    end.

(** Evaluating the literal [v] in any store succeeds, changes no existing
    object and yields a reference that denotes [v]. *)
Definition loads (v : value) : Prop :=
  forall h : heap, exists r h',
    load v h = (Ok r, h') /\ h ⊆ h' /\
    forall m, depth v <= m -> reify m h' r = Some v.

End Frame.

(** ** Outcomes of runs over the store *)

Module Outcome.
Import Py Store.

(** Two runs agree: both return documents that denote the same value, or
    both raise the same exception. *)
Definition agree (n : nat) (out out' : result ref * heap) : Prop :=
  match out, out' with
  | (Ok d, h), (Ok d', h') =>
      exists doc, reify n h d = Some doc /\ reify n h' d' = Some doc
  | (Raise e, _), (Raise e', _) => e = e'
  | _, _ => False
  end.

(** A run over the store yields what the value-level function yields. *)
Definition denotes (n : nat) (out : result ref * heap) (r : result value) : Prop :=
  match r, out with
  | Ok doc, (Ok d, h) => reify n h d = Some doc
  | Raise e, (Raise e', _) => e = e'
  | _, _ => False
  end.

End Outcome.

(** ** Failures of the loop bodies *)

Module Failure.
Import Py.

(** The exception raised by reading [fields] of [spec] in order, if any:
    that of the first subscription that fails. *)
Fixpoint first_error (fields : list string) (spec : value) : option exn :=
  match fields with
  | [] => None
  | k :: fields' =>
      match getitem spec k with
      | Ok _ => first_error fields' spec
      | Raise e => Some e
      end
  end.

(** A registry whose first active tool has no description. *)
Definition undescribed : value :=
  pydict [ ("category", VStr "Demo");
           ("input_schema", pydict [("type", VStr "object")]) ].

End Failure.

(** * Properties *)

(** ** Dictionaries *)

Section DictFacts.
Import Py.
Context {V : Type}.
Implicit Types (d : list (string * V)) (k : string) (v : V).

Lemma dict_get_setitem_same d k v :
  dict_get (dict_setitem d k v) k = Some v.
Proof.
  induction d as [|[k' v'] d IH]; simpl.
  - now rewrite String.eqb_refl.
  - destruct (String.eqb k' k) eqn:E; simpl; now rewrite E.
Qed.

Lemma dict_get_setitem_other d k k' v :
  k <> k' -> dict_get (dict_setitem d k v) k' = dict_get d k'.
Proof.
  intros Hne. induction d as [|[k0 v0] d IH]; simpl.
  - destruct (String.eqb_spec k k'); [contradiction | reflexivity].
  - destruct (String.eqb_spec k0 k) as [->|Hk]; simpl.
    + destruct (String.eqb_spec k k'); [contradiction | reflexivity].
    + now rewrite IH.
Qed.

Lemma dict_setitem_twice d k v v' :
  dict_setitem (dict_setitem d k v) k v' = dict_setitem d k v'.
Proof.
  induction d as [|[k0 v0] d IH]; simpl.
  - now rewrite String.eqb_refl.
  - destruct (String.eqb k0 k) eqn:E; simpl; rewrite E; [reflexivity | now rewrite IH].
Qed.

Lemma dict_setitem_unchanged d k v :
  dict_get d k = Some v -> dict_setitem d k v = d.
Proof.
  induction d as [|[k0 v0] d IH]; simpl; [discriminate |].
  destruct (String.eqb k0 k) eqn:E.
  - now intros [= ->].
  - intros H. now rewrite IH.
Qed.

Lemma dict_setitem_keys d k v :
  map fst (dict_setitem d k v) =
  if existsb (String.eqb k) (map fst d) then map fst d else map fst d ++ [k].
Proof.
  induction d as [|[k0 v0] d IH]; simpl; [reflexivity |].
  rewrite (String.eqb_sym k k0).
  destruct (String.eqb k0 k) eqn:E; simpl; [reflexivity |].
  rewrite IH. now destruct (existsb _ _).
Qed.

Lemma dict_setitem_NoDup d k v :
  NoDup (map fst d) -> NoDup (map fst (dict_setitem d k v)).
Proof.
  intros Hd. rewrite dict_setitem_keys.
  destruct (existsb (String.eqb k) (map fst d)) eqn:E; [assumption |].
  apply NoDup_app; repeat split; [assumption | | apply NoDup_singleton].
  intros x Hx Hk%list_elem_of_singleton. subst x.
  apply list_elem_of_In in Hx.
  assert (existsb (String.eqb k) (map fst d) = true) as Ht; [| congruence].
  apply existsb_exists. exists k. split; [assumption | apply String.eqb_refl].
Qed.

(** However a display is written, the dictionary it builds has one item per
    key. *)
Lemma dict_display_NoDup (kvs : list (string * V)) :
  NoDup (map fst (dict_display kvs)).
Proof.
  unfold dict_display.
  assert (forall (d : list (string * V)),
             NoDup (map fst d) ->
             NoDup (map fst (fold_left
               (fun d kv => dict_setitem d (fst kv) (snd kv)) kvs d))) as H.
  { induction kvs as [|kv kvs IH]; intros d Hd; simpl; [assumption |].
    apply IH, dict_setitem_NoDup, Hd. }
  apply H. constructor.
Qed.

End DictFacts.

(** ** The value-level function in closed form *)

Section ClosedForm.
Import Py Closed.

Lemma bind_Ok {A B : Type} (r : result A) (k : A -> result B) (b : B) :
  bind r k = Ok b -> exists a, r = Ok a /\ k a = Ok b.
Proof. destruct r as [a|e]; simpl; [eauto | discriminate]. Qed.

Lemma bind_Raise {A B : Type} (r : result A) (k : A -> result B) (e : exn) :
  bind r k = Raise e -> r = Raise e \/ exists a, r = Ok a /\ k a = Raise e.
Proof. destruct r as [a|e']; simpl; [eauto | intros [= ->]; now left]. Qed.

(** A loop whose body appends one entry to [manifest["tools"]] appends the
    entries of all items, in order. *)
Lemma for_each_append
    (entry : string * value -> result value)
    (body : string * value -> value -> result value)
    (Hbody : forall item items acc,
        dict_get items "tools" = Some (VList acc) ->
        body item (VDict items) =
        bind (entry item) (fun e =>
          Ok (VDict (dict_setitem items "tools" (VList (acc ++ [e])))))) :
  forall kvs items acc,
    dict_get items "tools" = Some (VList acc) ->
    for_each kvs body (VDict items) =
    bind (map_result entry kvs) (fun es =>
      Ok (VDict (dict_setitem items "tools" (VList (acc ++ es))))).
Proof.
  induction kvs as [|kv kvs IH]; intros items acc Hget; simpl.
  - rewrite app_nil_r. now rewrite dict_setitem_unchanged.
  - rewrite (Hbody _ _ _ Hget).
    destruct (entry kv) as [e|x]; simpl; [| reflexivity].
    rewrite (IH _ (acc ++ [e])) by apply dict_get_setitem_same.
    destruct (map_result entry kvs) as [es|x]; simpl; [| reflexivity].
    now rewrite dict_setitem_twice, <- app_assoc.
Qed.

Lemma manifest_head_tools : dict_get manifest_head "tools" = Some (VList []).
Proof. reflexivity. Qed.

Lemma generate_manifest_on_closed (tools aliases : dict) :
  GenerateManifestV2.generate_manifest_on tools aliases = compile tools aliases.
Proof.
  unfold GenerateManifestV2.generate_manifest_on, compile.
  cbv zeta.
  match goal with
  | |- context [for_each (dict_items tools) _ (pydict ?l)] =>
      change (pydict l) with (VDict manifest_head)
  end.
  rewrite (for_each_append active_entry) with (acc := []);
    [| | apply manifest_head_tools].
  2:{ intros [name spec] items acc Hget. unfold active_entry.
      destruct (getitem spec "category"); simpl; [| reflexivity].
      destruct (getitem spec "description"); simpl; [| reflexivity].
      destruct (getitem spec "input_schema"); simpl; [| reflexivity].
      unfold append_at. simpl. now rewrite Hget. }
  unfold dict_items.
  destruct (map_result active_entry tools) as [active|e]; cbn [bind]; [| reflexivity].
  rewrite (for_each_append alias_entry) with (acc := active);
    [| | apply dict_get_setitem_same].
  2:{ intros [name spec] items acc Hget. unfold alias_entry.
      destruct (getitem spec "category"); simpl; [| reflexivity].
      destruct (getitem spec "description"); simpl; [| reflexivity].
      destruct (getitem spec "redirect_to"); simpl; [| reflexivity].
      unfold append_at. simpl. now rewrite Hget. }
  destruct (map_result alias_entry aliases) as [deprecated|e]; cbn [bind]; [| reflexivity].
  unfold manifest_of. now rewrite dict_setitem_twice.
Qed.

(** The approved script has the same function body. *)
Lemma generate_manifest_on_approved :
  GenerateManifestV2Approved.generate_manifest_on =
  GenerateManifestV2.generate_manifest_on.
Proof. reflexivity. Qed.

End ClosedForm.

(** ** Shape of the produced document *)

Section Shape.
Import Py Closed Manifest.

Lemma map_result_Ok {X Y : Type} (f : X -> result Y) xs ys :
  map_result f xs = Ok ys <-> Forall2 (fun x y => f x = Ok y) xs ys.
Proof.
  revert ys. induction xs as [|x xs IH]; intros ys; simpl.
  - split.
    + intros [= <-]. constructor.
    + intros H. inversion H. reflexivity.
  - split.
    + intros H. apply bind_Ok in H as (y & Hy & H).
      apply bind_Ok in H as (ys' & Hys & [= <-]).
      constructor; [assumption | now apply IH].
    + intros H. inversion H as [|? y ? ys' Hy Hys]; subst.
      rewrite Hy. simpl. apply IH in Hys. now rewrite Hys.
Qed.

Lemma map_result_Raise {X Y : Type} (f : X -> result Y) xs e :
  map_result f xs = Raise e -> exists x, In x xs /\ f x = Raise e.
Proof.
  induction xs as [|x xs IH]; simpl; [discriminate |].
  destruct (f x) as [y|e'] eqn:Hx; simpl.
  - destruct (map_result f xs) as [ys|e'']; simpl; [discriminate |].
    intros [= ->]. destruct IH as (x' & Hin & Hx'); eauto.
  - intros [= ->]. eauto.
Qed.

Lemma map_result_total {X Y : Type} (f : X -> result Y) xs :
  Forall (fun x => exists y, f x = Ok y) xs -> exists ys, map_result f xs = Ok ys.
Proof.
  induction 1 as [|x xs [y Hy] _ [ys Hys]]; simpl; [eauto |].
  rewrite Hy, Hys. simpl. eauto.
Qed.

Lemma doc_tools_manifest_of entries :
  doc_tools (manifest_of entries) = Some entries.
Proof.
  unfold doc_tools, manifest_of, getitem. now rewrite dict_get_setitem_same.
Qed.

Lemma manifest_of_metadata entries k :
  k <> "tools" ->
  getitem (manifest_of entries) k = getitem (VDict manifest_head) k.
Proof.
  intros Hk. unfold manifest_of, getitem.
  rewrite dict_get_setitem_other; [reflexivity | congruence].
Qed.

(** The entries a successful run is made of. *)
Lemma compile_Ok tools aliases doc :
  compile tools aliases = Ok doc ->
  exists active deprecated,
    doc = manifest_of (active ++ deprecated) /\
    Forall2 (fun item e => active_entry item = Ok e) tools active /\
    Forall2 (fun item e => alias_entry item = Ok e) aliases deprecated.
Proof.
  unfold compile, dict_items. intros H.
  apply bind_Ok in H as (active & Ha & H).
  apply bind_Ok in H as (deprecated & Hd & [= <-]).
  exists active, deprecated. now rewrite <- !map_result_Ok.
Qed.

Lemma active_entry_Ok name spec e :
  active_entry (name, spec) = Ok e ->
  exists category description input_schema,
    getitem spec "category" = Ok category /\
    getitem spec "description" = Ok description /\
    getitem spec "input_schema" = Ok input_schema /\
    e = VDict [ ("name", VStr name); ("category", category);
                ("description", description);
                ("input_schema", input_schema) ].
Proof.
  unfold active_entry. intros H.
  apply bind_Ok in H as (c & Hc & H).
  apply bind_Ok in H as (d & Hd & H).
  apply bind_Ok in H as (s & Hs & [= <-]).
  now exists c, d, s.
Qed.

Lemma alias_entry_Ok name spec e :
  alias_entry (name, spec) = Ok e ->
  exists category description redirect_to,
    getitem spec "category" = Ok category /\
    getitem spec "description" = Ok description /\
    getitem spec "redirect_to" = Ok redirect_to /\
    e = VDict [ ("name", VStr name); ("category", category);
                ("description", description);
                ("redirect_to", redirect_to);
                ("deprecated", VBool true);
                ("input_schema", empty_object_schema) ].
Proof.
  unfold alias_entry. intros H.
  apply bind_Ok in H as (c & Hc & H).
  apply bind_Ok in H as (d & Hd & H).
  apply bind_Ok in H as (r & Hr & [= <-]).
  now exists c, d, r.
Qed.

Lemma getitem_raises (obj : value) (k : string) (e : exn) :
  getitem obj k = Raise e -> e = KeyError k \/ e = TypeError.
Proof.
  unfold getitem. destruct obj; try (intros [= <-]; now right).
  destruct (dict_get items k); [discriminate | intros [= <-]; now left].
Qed.

Lemma active_entry_Raise item e :
  active_entry item = Raise e -> exists k, e = KeyError k \/ e = TypeError.
Proof.
  destruct item as [name spec]. unfold active_entry. intros H.
  repeat (apply bind_Raise in H as [H|(? & _ & H)];
          [apply getitem_raises in H; eauto |]).
  discriminate.
Qed.

Lemma alias_entry_Raise item e :
  alias_entry item = Raise e -> exists k, e = KeyError k \/ e = TypeError.
Proof.
  destruct item as [name spec]. unfold alias_entry. intros H.
  repeat (apply bind_Raise in H as [H|(? & _ & H)];
          [apply getitem_raises in H; eauto |]).
  discriminate.
Qed.

(** The only failures are those of the subscriptions in the loop bodies. *)
Lemma compile_Raise tools aliases e :
  compile tools aliases = Raise e -> exists k, e = KeyError k \/ e = TypeError.
Proof.
  unfold compile, dict_items. intros H.
  apply bind_Raise in H as [H|(active & _ & H)].
  { apply map_result_Raise in H as (item & _ & H).
    eapply active_entry_Raise, H. }
  apply bind_Raise in H as [H|(deprecated & _ & H)]; [| discriminate].
  apply map_result_Raise in H as (item & _ & H).
  eapply alias_entry_Raise, H.
Qed.

Lemma has_fields_cons k fields spec :
  has_fields (k :: fields) spec = true ->
  (exists v, getitem spec k = Ok v) /\ has_fields fields spec = true.
Proof.
  unfold has_fields. simpl. intros [Hk ?]%andb_prop.
  destruct (getitem spec k); [eauto | discriminate].
Qed.

(** A run succeeds as soon as every registry entry has the fields read. *)
Lemma compile_total tools aliases :
  Forall (fun item => has_fields active_fields (snd item) = true) tools ->
  Forall (fun item => has_fields alias_fields (snd item) = true) aliases ->
  exists doc, compile tools aliases = Ok doc.
Proof.
  intros Ht Ha. unfold compile, dict_items.
  destruct (map_result_total active_entry tools) as [active ->].
  { eapply Forall_impl; [exact Ht |]. intros [name spec] H. cbn [snd] in H. unfold active_fields, alias_fields in H.
    apply has_fields_cons in H as [[c Hc] H].
    apply has_fields_cons in H as [[d Hd] H].
    apply has_fields_cons in H as [[s Hs] _].
    unfold active_entry. rewrite Hc, Hd, Hs. simpl. eauto. }
  destruct (map_result_total alias_entry aliases) as [deprecated ->].
  { eapply Forall_impl; [exact Ha |]. intros [name spec] H. cbn [snd] in H. unfold active_fields, alias_fields in H.
    apply has_fields_cons in H as [[c Hc] H].
    apply has_fields_cons in H as [[d Hd] H].
    apply has_fields_cons in H as [[r Hr] _].
    unfold alias_entry. rewrite Hc, Hd, Hr. simpl. eauto. }
  simpl. eauto.
Qed.

Lemma compilers_closed gm tools aliases :
  In gm Scripts.compilers -> gm tools aliases = compile tools aliases.
Proof.
  intros [<-|[<-|[]]].
  - apply generate_manifest_on_closed.
  - rewrite generate_manifest_on_approved. apply generate_manifest_on_closed.
Qed.

End Shape.

(** ** Entries of a successful run *)

Section Entries.
Import Py Closed Manifest.

Lemma active_entry_name item e :
  active_entry item = Ok e ->
  entry_name e = Some (fst item) /\
  has_deprecated_field e = false /\
  is_deprecated e = false /\
  getitem e "input_schema" = getitem (snd item) "input_schema".
Proof.
  destruct item as [name spec]. intros H.
  apply active_entry_Ok in H as (c & d & s & _ & _ & Hs & ->).
  cbn [fst snd]. rewrite Hs. repeat split.
Qed.

Lemma alias_entry_name item e :
  alias_entry item = Ok e ->
  entry_name e = Some (fst item) /\
  is_deprecated e = true /\
  getitem e "deprecated" = Ok (VBool true) /\
  getitem e "redirect_to" = getitem (snd item) "redirect_to" /\
  getitem e "input_schema" = Ok empty_object_schema.
Proof.
  destruct item as [name spec]. intros H.
  apply alias_entry_Ok in H as (c & d & r & _ & _ & Hr & ->).
  cbn [fst snd]. rewrite Hr. repeat split.
Qed.

Lemma Forall2_pick {X Y : Type} (R : X -> Y -> Prop) xs ys x :
  Forall2 R xs ys -> In x xs ->
  exists ys1 y ys2, ys = ys1 ++ y :: ys2 /\ R x y.
Proof.
  intros HR Hin. apply in_split in Hin as (xs1 & xs2 & ->).
  apply Forall2_app_inv_l in HR as (ys1 & ys' & _ & HR & ->).
  apply Forall2_cons_inv_l in HR as (y & ys2 & Hy & _ & ->).
  now exists ys1, y, ys2.
Qed.

Lemma exn_class_other (cls : string) :
  cls <> "KeyError" -> cls <> "TypeError" ->
  forall {A : Type} (r : result A),
    (forall e, r = Raise e -> exists k, e = KeyError k \/ e = TypeError) ->
    ~ fails_with cls r.
Proof.
  intros Hk Ht A r Hr [arg Harg].
  destruct (Hr _ Harg) as [k' [[= -> _]|[= -> _]]]; contradiction.
Qed.

End Entries.

(** ** The compile operation on arbitrary registries *)

Section Compile.
Import Py Closed Manifest Scripts.

(** C3 -- count law.  Whenever compilation succeeds, the [tools] sequence of
    the document has exactly [len(TOOLS) + len(DEPRECATED_ALIASES)]
    entries. *)
Theorem count_law gm (tools aliases : dict) (doc : value) :
  In gm compilers ->
  gm tools aliases = Ok doc ->
  exists entries,
    doc_tools doc = Some entries /\
    length entries = len tools + len aliases.
Proof.
  intros Hgm Hrun. rewrite (compilers_closed _ _ _ Hgm) in Hrun.
  apply compile_Ok in Hrun as (active & deprecated & -> & Ha & Hd).
  exists (active ++ deprecated). split; [apply doc_tools_manifest_of |].
  rewrite length_app. unfold len.
  now rewrite (Forall2_length _ _ _ Ha), (Forall2_length _ _ _ Hd).
Qed.

Lemma count_law_witness :
  exists doc,
    GenerateManifestV2.generate_manifest_on
      GenerateManifestV2.TOOLS GenerateManifestV2.DEPRECATED_ALIASES = Ok doc /\
    exists entries, doc_tools doc = Some entries /\ length entries = 30 + 18.
Proof.
  eexists. split; [vm_compute; reflexivity |].
  eapply (count_law GenerateManifestV2.generate_manifest_on
            GenerateManifestV2.TOOLS GenerateManifestV2.DEPRECATED_ALIASES).
  - left; reflexivity.
  - vm_compute; reflexivity.
Defined.

(** C4 -- ordering law.  Whenever compilation succeeds, the [tools] sequence
    is the active entries, named after the keys of [TOOLS] in insertion
    order and none of them flagged, followed by the alias entries, named
    after the keys of [DEPRECATED_ALIASES] in insertion order and all of
    them flagged deprecated. *)
Theorem ordering_law gm (tools aliases : dict) (doc : value) :
  In gm compilers ->
  gm tools aliases = Ok doc ->
  exists active deprecated,
    doc_tools doc = Some (active ++ deprecated) /\
    map entry_name active = map Some (dict_keys tools) /\
    map entry_name deprecated = map Some (dict_keys aliases) /\
    Forall (fun e => is_deprecated e = false) active /\
    Forall (fun e => is_deprecated e = true) deprecated.
Proof.
  intros Hgm Hrun. rewrite (compilers_closed _ _ _ Hgm) in Hrun.
  apply compile_Ok in Hrun as (active & deprecated & -> & Ha & Hd).
  exists active, deprecated. split; [apply doc_tools_manifest_of |].
  unfold dict_keys. repeat split.
  - clear Hd. induction Ha as [|item e ? ? He _ IH]; simpl; [reflexivity |].
    apply active_entry_name in He as (-> & _). now rewrite IH.
  - clear Ha. induction Hd as [|item e ? ? He _ IH]; simpl; [reflexivity |].
    apply alias_entry_name in He as (-> & _). now rewrite IH.
  - clear Hd. induction Ha as [|item e ? ? He _ IH]; constructor; [| exact IH].
    now apply active_entry_name in He.
  - clear Ha. induction Hd as [|item e ? ? He _ IH]; constructor; [| exact IH].
    now apply alias_entry_name in He.
Qed.

Lemma ordering_law_witness :
  exists doc,
    GenerateManifestV2Approved.generate_manifest_on
      Examples.one_tool Examples.one_alias = Ok doc /\
    exists active deprecated,
      doc_tools doc = Some (active ++ deprecated) /\
      map entry_name active = [Some "a"] /\
      map entry_name deprecated = [Some "legacy_a"] /\
      Forall (fun e => is_deprecated e = false) active /\
      Forall (fun e => is_deprecated e = true) deprecated.
Proof.
  eexists. split; [vm_compute; reflexivity |].
  eapply (ordering_law GenerateManifestV2Approved.generate_manifest_on
            Examples.one_tool Examples.one_alias).
  - right; left; reflexivity.
  - vm_compute; reflexivity.
Defined.

(** C5, as the code has it -- flag correctness.  Whenever compilation
    succeeds, every active entry carries the [input_schema] of its
    definition and has no [deprecated] field; every alias entry carries
    [deprecated] set to [True], the placeholder schema
    [{"type": "object", "properties": {}}] and the [redirect_to] of its
    definition, copied as it is. *)
Theorem flag_correctness gm (tools aliases : dict) (doc : value) :
  In gm compilers ->
  gm tools aliases = Ok doc ->
  exists active deprecated,
    doc_tools doc = Some (active ++ deprecated) /\
    Forall2 (fun item e =>
               getitem e "input_schema" = getitem (snd item) "input_schema" /\
               has_deprecated_field e = false)
            (dict_items tools) active /\
    Forall2 (fun item e =>
               getitem e "deprecated" = Ok (VBool true) /\
               getitem e "redirect_to" = getitem (snd item) "redirect_to" /\
               getitem e "input_schema" = Ok empty_object_schema)
            (dict_items aliases) deprecated.
Proof.
  intros Hgm Hrun. rewrite (compilers_closed _ _ _ Hgm) in Hrun.
  apply compile_Ok in Hrun as (active & deprecated & -> & Ha & Hd).
  exists active, deprecated. split; [apply doc_tools_manifest_of |].
  unfold dict_items. split.
  - eapply Forall2_impl; [exact Ha |]. intros item e He.
    now apply active_entry_name in He.
  - eapply Forall2_impl; [exact Hd |]. intros item e He.
    now apply alias_entry_name in He.
Qed.

Lemma flag_correctness_witness :
  exists doc,
    GenerateManifestV2.generate_manifest_on
      Examples.one_tool Examples.one_alias = Ok doc /\
    exists active deprecated,
      doc_tools doc = Some (active ++ deprecated) /\
      Forall2 (fun item e =>
                 getitem e "input_schema" = getitem (snd item) "input_schema" /\
                 has_deprecated_field e = false)
              (dict_items Examples.one_tool) active /\
      Forall2 (fun item e =>
                 getitem e "deprecated" = Ok (VBool true) /\
                 getitem e "redirect_to" = getitem (snd item) "redirect_to" /\
                 getitem e "input_schema" = Ok empty_object_schema)
              (dict_items Examples.one_alias) deprecated.
Proof.
  eexists. split; [vm_compute; reflexivity |].
  eapply (flag_correctness GenerateManifestV2.generate_manifest_on
            Examples.one_tool Examples.one_alias).
  - left; reflexivity.
  - vm_compute; reflexivity.
Defined.

(** The alias [x] with [redirect_to] the empty string compiles, and its
    entry in the document is flagged deprecated with an empty
    [redirect_to]. *)
Lemma flag_correctness_counterexample :
  exists doc entry redirect_to,
    GenerateManifestV2.generate_manifest_on
      Examples.no_tools Examples.blank_alias = Ok doc /\
    doc_tools doc = Some [entry] /\
    is_deprecated entry = true /\
    getitem entry "redirect_to" = Ok redirect_to /\
    is_nonempty_string redirect_to = false.
Proof.
  eexists. eexists. eexists.
  split; [vm_compute; reflexivity |].
  split; [vm_compute; reflexivity |].
  split; [reflexivity |].
  split; reflexivity.
Qed.

End Compile.

(** ** Validation that the compile operation does not perform *)

Section NoValidation.
Import Py Closed Manifest Scripts.

Lemma compilers_raise gm (tools aliases : dict) (e : exn) :
  In gm compilers ->
  gm tools aliases = Raise e -> exists k, e = KeyError k \/ e = TypeError.
Proof.
  intros Hgm. rewrite (compilers_closed _ _ _ Hgm). apply compile_Raise.
Qed.

(** An active tool ["a"] and an alias ["a"]: the run returns a document
    with two entries named ["a"]. *)
Lemma duplicate_name_counterexample :
  In "a" (dict_keys Examples.one_tool) /\
  In "a" (dict_keys Examples.clashing_alias) /\
  ~ fails_with "DuplicateNameError"
      (GenerateManifestV2.generate_manifest_on
         Examples.one_tool Examples.clashing_alias) /\
  exists doc,
    GenerateManifestV2.generate_manifest_on
      Examples.one_tool Examples.clashing_alias = Ok doc /\
    tool_names doc = Some ["a"; "a"].
Proof.
  split; [left; reflexivity |].
  split; [left; reflexivity |].
  split.
  - intros [arg Harg]. vm_compute in Harg. discriminate.
  - eexists. split; vm_compute; reflexivity.
Qed.

(** C1, as the code has it.  The compile operation makes no check of names
    and never raises [DuplicateNameError].  When a name is a key of both
    mappings and the run succeeds, the document has two entries of that
    name, the active one before the deprecated one.  Within one mapping a
    name cannot be repeated: a display keeps one item per key. *)
Theorem no_duplicate_name_check gm (tools aliases : dict) :
  In gm compilers ->
  ~ fails_with "DuplicateNameError" (gm tools aliases) /\
  (forall doc name,
      gm tools aliases = Ok doc ->
      In name (dict_keys tools) ->
      In name (dict_keys aliases) ->
      exists before e1 between e2 after,
        doc_tools doc = Some (before ++ e1 :: between ++ e2 :: after) /\
        entry_name e1 = Some name /\ is_deprecated e1 = false /\
        entry_name e2 = Some name /\ is_deprecated e2 = true) /\
  (forall items : list (string * value), NoDup (dict_keys (dict_display items))).
Proof.
  intros Hgm. split; [| split].
  - apply exn_class_other; [discriminate | discriminate |].
    intros e. now apply compilers_raise.
  - intros doc name Hrun Ht Ha. rewrite (compilers_closed _ _ _ Hgm) in Hrun.
    apply compile_Ok in Hrun as (active & deprecated & -> & Hact & Hdep).
    apply in_map_iff in Ht as (t & <- & Ht).
    apply in_map_iff in Ha as (a & Hfst & Ha).
    destruct (Forall2_pick _ _ _ _ Hact Ht) as (a1 & e1 & a2 & -> & He1).
    destruct (Forall2_pick _ _ _ _ Hdep Ha) as (d1 & e2 & d2 & -> & He2).
    apply active_entry_name in He1 as (Hn1 & _ & Hf1 & _).
    apply alias_entry_name in He2 as (Hn2 & Hf2 & _).
    exists a1, e1, (a2 ++ d1), e2, d2.
    rewrite doc_tools_manifest_of.
    split; [now rewrite <- !app_assoc |].
    rewrite Hfst in Hn2. auto.
  - intros items. apply dict_display_NoDup.
Qed.

Lemma no_duplicate_name_check_witness :
  ~ fails_with "DuplicateNameError"
      (GenerateManifestV2.generate_manifest_on
         Examples.one_tool Examples.clashing_alias) /\
  exists doc,
    GenerateManifestV2.generate_manifest_on
      Examples.one_tool Examples.clashing_alias = Ok doc /\
    exists before e1 between e2 after,
      doc_tools doc = Some (before ++ e1 :: between ++ e2 :: after) /\
      entry_name e1 = Some "a" /\ is_deprecated e1 = false /\
      entry_name e2 = Some "a" /\ is_deprecated e2 = true.
Proof.
  destruct (no_duplicate_name_check GenerateManifestV2.generate_manifest_on
              Examples.one_tool Examples.clashing_alias)
    as (Hnever & Htwice & _); [left; reflexivity |].
  split; [exact Hnever |].
  eexists. split; [vm_compute; reflexivity |].
  apply Htwice; [vm_compute; reflexivity | left; reflexivity | left; reflexivity].
Defined.

(** The alias [x] redirecting to ["nonexistent"], with no active tool at
    all: the run returns a one-entry document. *)
Lemma dangling_redirect_counterexample :
  getitem (Examples.alias_to "nonexistent") "redirect_to" = Ok (VStr "nonexistent") /\
  ~ In "nonexistent" (dict_keys Examples.no_tools) /\
  ~ fails_with "DanglingRedirectError"
      (GenerateManifestV2.generate_manifest_on
         Examples.no_tools Examples.dangling_alias) /\
  exists doc entry,
    GenerateManifestV2.generate_manifest_on
      Examples.no_tools Examples.dangling_alias = Ok doc /\
    doc_tools doc = Some [entry] /\
    entry_name entry = Some "x" /\
    entry_redirect entry = Some "nonexistent".
Proof.
  split; [reflexivity |].
  split; [intros [] |].
  split.
  - intros [arg Harg]. vm_compute in Harg. discriminate.
  - eexists. eexists. split; [vm_compute; reflexivity |].
    split; [vm_compute; reflexivity |]. split; reflexivity.
Qed.

(** C2, as the code has it.  The compile operation makes no check of
    redirect targets and never raises [DanglingRedirectError].  It returns
    a document as soon as every registry entry has the fields the loops
    read, and each alias entry then carries the [redirect_to] of its
    definition, whether or not that names an active tool. *)
Theorem no_dangling_redirect_check gm (tools aliases : dict) :
  In gm compilers ->
  ~ fails_with "DanglingRedirectError" (gm tools aliases) /\
  (Forall (fun item => has_fields active_fields (snd item) = true) tools ->
   Forall (fun item => has_fields alias_fields (snd item) = true) aliases ->
   exists doc active deprecated,
     gm tools aliases = Ok doc /\
     doc_tools doc = Some (active ++ deprecated) /\
     length active = len tools /\
     Forall2 (fun item e =>
                getitem e "redirect_to" = getitem (snd item) "redirect_to")
             (dict_items aliases) deprecated).
Proof.
  intros Hgm. split.
  - apply exn_class_other; [discriminate | discriminate |].
    intros e. now apply compilers_raise.
  - intros Ht Ha. rewrite (compilers_closed _ _ _ Hgm).
    destruct (compile_total _ _ Ht Ha) as [doc Hrun]. rewrite Hrun.
    apply compile_Ok in Hrun as (active & deprecated & -> & Hact & Hdep).
    exists (manifest_of (active ++ deprecated)), active, deprecated.
    split; [reflexivity |]. split; [apply doc_tools_manifest_of |].
    split; [symmetry; exact (Forall2_length _ _ _ Hact) |].
    eapply Forall2_impl; [exact Hdep |]. intros item e He.
    now apply alias_entry_name in He.
Qed.

Lemma no_dangling_redirect_check_witness :
  ~ fails_with "DanglingRedirectError"
      (GenerateManifestV2.generate_manifest_on
         Examples.no_tools Examples.dangling_alias) /\
  exists doc active deprecated,
    GenerateManifestV2.generate_manifest_on
      Examples.no_tools Examples.dangling_alias = Ok doc /\
    doc_tools doc = Some (active ++ deprecated) /\
    length active = len Examples.no_tools /\
    Forall2 (fun item e =>
               getitem e "redirect_to" = getitem (snd item) "redirect_to")
            (dict_items Examples.dangling_alias) deprecated.
Proof.
  destruct (no_dangling_redirect_check GenerateManifestV2.generate_manifest_on
              Examples.no_tools Examples.dangling_alias)
    as (Hnever & Hruns); [left; reflexivity |].
  split; [exact Hnever |].
  apply Hruns.
  - constructor.
  - repeat constructor.
Defined.

End NoValidation.

(** ** The built-in registries *)

Section Builtin.
Import Py Closed Manifest Scripts.

(** C6 -- uniqueness.  In the document each script produces from its
    built-in registries, every entry has a name and the names are pairwise
    distinct. *)
Theorem builtin_names_distinct :
  Forall (fun run =>
            exists doc names,
              run = Ok doc /\ tool_names doc = Some names /\ NoDup names)
         builtin_runs.
Proof.
  repeat constructor.
  - eexists. eexists. split; [vm_compute; reflexivity |].
    split; [vm_compute; reflexivity |].
    apply (bool_decide_unpack _). vm_compute. exact I.
  - eexists. eexists. split; [vm_compute; reflexivity |].
    split; [vm_compute; reflexivity |].
    apply (bool_decide_unpack _). vm_compute. exact I.
Qed.

Lemma redirects_resolve_sound entries :
  redirects_resolve entries = true ->
  forall e, In e entries -> is_deprecated e = true ->
    exists target a,
      entry_redirect e = Some target /\
      In a entries /\ is_deprecated a = false /\ entry_name a = Some target.
Proof.
  unfold redirects_resolve. intros H e He Hdep.
  rewrite forallb_forall in H. specialize (H e He).
  rewrite Hdep in H. simpl in H.
  destruct (entry_redirect e) as [target|]; [| discriminate].
  apply existsb_exists in H as (a & Ha & [Hact Hname]%andb_prop).
  exists target, a. repeat split; try assumption.
  - now apply negb_true_iff.
  - now apply bool_decide_eq_true in Hname.
Qed.

(** C7 -- redirect integrity.  In the document each script produces from
    its built-in registries, the [redirect_to] of every alias entry is the
    name of an active entry of the same document. *)
Theorem builtin_redirects_resolve :
  Forall (fun run =>
            exists doc entries,
              run = Ok doc /\ doc_tools doc = Some entries /\
              forall e, In e entries -> is_deprecated e = true ->
                exists target a,
                  entry_redirect e = Some target /\
                  In a entries /\ is_deprecated a = false /\
                  entry_name a = Some target)
         builtin_runs.
Proof.
  repeat constructor.
  - eexists. eexists. split; [vm_compute; reflexivity |].
    split; [vm_compute; reflexivity |].
    apply redirects_resolve_sound. vm_compute. reflexivity.
  - eexists. eexists. split; [vm_compute; reflexivity |].
    split; [vm_compute; reflexivity |].
    apply redirects_resolve_sound. vm_compute. reflexivity.
Qed.

(** In both built-in documents the [redirect_to] of every alias entry is a
    non-empty string. *)
Lemma builtin_redirects_nonempty :
  Forall (fun run =>
            exists doc entries,
              run = Ok doc /\ doc_tools doc = Some entries /\
              forallb (fun e =>
                         negb (is_deprecated e) ||
                         match getitem e "redirect_to" with
                         | Ok r => is_nonempty_string r
                         | Raise _ => false
                         end) entries = true)
         builtin_runs.
Proof.
  repeat constructor.
  - eexists. eexists. split; [vm_compute; reflexivity |].
    split; vm_compute; reflexivity.
  - eexists. eexists. split; [vm_compute; reflexivity |].
    split; vm_compute; reflexivity.
Qed.

(** C9 -- same metadata.  The documents of the two scripts agree on every
    key other than ["tools"], and the metadata fields have the values
    written in the source. *)
Theorem builtin_metadata_identical :
  exists doc doc',
    GenerateManifestV2.generate_manifest = Ok doc /\
    GenerateManifestV2Approved.generate_manifest = Ok doc' /\
    (forall k, k <> "tools" -> getitem doc k = getitem doc' k) /\
    (exists items items',
        doc = VDict items /\ doc' = VDict items' /\
        dict_keys items = metadata_keys ++ ["tools"] /\
        dict_keys items' = metadata_keys ++ ["tools"]) /\
    getitem doc "name" = Ok (VStr "TheLoopGPT.ai") /\
    (exists text, getitem doc "description" = Ok (VStr text)) /\
    getitem doc "version" = Ok (VStr "2.0.0") /\
    getitem doc "schema_version" = Ok (VStr "v1") /\
    getitem doc "namespace" = Ok (VStr "loopgpt") /\
    getitem doc "contact_email" = Ok (VStr "support@theloopgpt.ai") /\
    getitem doc "api" =
      Ok (pydict
            [ ("type", VStr "openai-mcp");
              ("url", VStr "https://qmagnwxeijctkksqbcqz.supabase.co/functions/v1/mcp-server") ]) /\
    getitem doc "authentication" = Ok (pydict [("type", VStr "none")]).
Proof.
  assert (exists doc, GenerateManifestV2.generate_manifest = Ok doc) as [doc Hrun]
    by (eexists; vm_compute; reflexivity).
  assert (exists doc', GenerateManifestV2Approved.generate_manifest = Ok doc')
    as [doc' Hrun'] by (eexists; vm_compute; reflexivity).
  exists doc, doc'. split; [exact Hrun |]. split; [exact Hrun' |].
  unfold GenerateManifestV2.generate_manifest in Hrun.
  unfold GenerateManifestV2Approved.generate_manifest in Hrun'.
  rewrite generate_manifest_on_approved in Hrun'.
  rewrite generate_manifest_on_closed in Hrun, Hrun'.
  apply compile_Ok in Hrun as (? & ? & -> & _).
  apply compile_Ok in Hrun' as (? & ? & -> & _).
  split.
  { intros k Hk. now rewrite !manifest_of_metadata. }
  split.
  { unfold manifest_of. eexists. eexists.
    split; [reflexivity |]. split; [reflexivity |].
    split; match goal with
           | |- context [VList ?l] => generalize (VList l)
           end; intros entries; vm_compute; reflexivity. }
  repeat split; try (rewrite manifest_of_metadata by discriminate; reflexivity).
  eexists. rewrite manifest_of_metadata by discriminate. reflexivity.
Qed.

Lemma schema_well_formed_sound schema :
  schema_well_formed schema = true -> required_declared schema.
Proof.
  unfold schema_well_formed, required_declared. intros H v Hv.
  rewrite Hv in H. destruct v as [| | |required|]; try discriminate.
  destruct (getitem schema "properties") as [[| | | |properties]|];
    try discriminate.
  exists required, properties. repeat split.
  intros r Hr. rewrite forallb_forall in H. specialize (H r Hr).
  destruct r as [p| | | |]; try discriminate.
  exists p. split; [reflexivity |].
  apply existsb_exists in H as (p' & Hin & Heq).
  now apply String.eqb_eq in Heq as ->.
Qed.

Lemma registry_schemas_well_formed_sound tools :
  registry_schemas_well_formed tools = true ->
  forall name spec, In (name, spec) tools ->
    exists schema,
      getitem spec "input_schema" = Ok schema /\ required_declared schema.
Proof.
  unfold registry_schemas_well_formed, dict_items. intros H name spec Hin.
  rewrite forallb_forall in H. specialize (H _ Hin). simpl in H.
  destruct (getitem spec "input_schema") as [schema|]; [| discriminate].
  exists schema. split; [reflexivity | now apply schema_well_formed_sound].
Qed.

(** C10 -- well-formed schemas.  In the built-in [TOOLS] of both scripts,
    every tool has an [input_schema], and each name listed in its
    [required] array is a key of its [properties] object. *)
Theorem builtin_schemas_well_formed :
  Forall (fun tools =>
            forall name spec, In (name, spec) (dict_items tools) ->
              exists schema,
                getitem spec "input_schema" = Ok schema /\
                required_declared schema)
         builtin_tools.
Proof.
  repeat constructor; apply registry_schemas_well_formed_sound;
    vm_compute; reflexivity.
Qed.

End Builtin.

(** ** Reading values off the store *)

Section Reify.
Import Py Store Closed Frame.

Lemma mapM_weaken {X Y : Type} (f g : X -> option Y) xs ys :
  (forall x y, f x = Some y -> g x = Some y) ->
  mapM f xs = Some ys -> mapM g xs = Some ys.
Proof.
  intros Hfg H. apply mapM_Some. apply mapM_Some in H.
  eapply Forall2_impl; [exact H | exact Hfg].
Qed.

(** More fuel and more objects do not change what has been read. *)
Lemma reify_weaken n m (h h' : heap) r v :
  n <= m -> h ⊆ h' -> reify n h r = Some v -> reify m h' r = Some v.
Proof.
  intros Hnm Hh. revert m Hnm r v.
  induction n as [|n IH]; intros m Hnm r v.
  - destruct r; destruct m; simpl; try discriminate; auto.
  - destruct m as [|m]; [lia |].
    destruct r as [s|z|b|l]; simpl; auto.
    destruct (h !! l) as [o|] eqn:Hl; [| discriminate].
    rewrite (lookup_weaken _ _ _ _ Hl Hh).
    destruct o as [its|xs]; intros H.
    + destruct (mapM _ its) as [itsv|] eqn:Hm; [| discriminate].
      erewrite mapM_weaken; [exact H | | exact Hm].
      intros [k r'] [k' v']; simpl.
      destruct (reify n h r') as [w|] eqn:Hr; [| discriminate].
      rewrite (IH m ltac:(lia) _ _ Hr). auto.
    + destruct (mapM _ xs) as [xsv|] eqn:Hm; [| discriminate].
      erewrite mapM_weaken; [exact H | | exact Hm].
      intros r' v' Hr. apply IH; [lia | exact Hr].
Qed.

Lemma items_denote_weaken n m (h h' : heap) its itsv :
  n <= m -> h ⊆ h' -> items_denote n h its itsv -> items_denote m h' its itsv.
Proof.
  intros Hnm Hh H. eapply Forall2_impl; [exact H |].
  intros kr kv [Hk Hr]. split; [exact Hk |].
  eapply reify_weaken; eassumption.
Qed.

Lemma reify_dict_inv n (h : heap) r itsv :
  reify n h r = Some (VDict itsv) ->
  exists l its,
    r = RObj l /\ h !! l = Some (ODict its) /\ items_denote n h its itsv.
Proof.
  intros H.
  destruct r as [s|z|b|l]; destruct n as [|n]; simpl in H; try discriminate.
  destruct (h !! l) as [[its|xs]|] eqn:Hl; try discriminate.
  - destruct (mapM _ its) as [itsv'|] eqn:Hm; [| discriminate].
    injection H as <-. exists l, its.
    split; [reflexivity |]. split; [exact Hl |].
    apply mapM_Some in Hm.
    eapply Forall2_impl; [exact Hm |].
    intros [k r'] [k' v'] Hkv. cbn [fst snd] in *.
    destruct (reify n h r') as [w|] eqn:Hr; [| discriminate].
    injection Hkv as <- <-. split; [reflexivity |].
    eapply reify_weaken; [| reflexivity | exact Hr]. lia.
  - destruct (mapM _ xs); discriminate.
Qed.

Lemma items_denote_get n (h : heap) its itsv k :
  items_denote n h its itsv ->
  match dict_get its k with
  | Some r => exists v, dict_get itsv k = Some v /\ reify n h r = Some v
  | None => dict_get itsv k = None
  end.
Proof.
  induction 1 as [|[k1 r1] [k2 v2] its itsv [Hk Hr] _ IH]; simpl in *; [reflexivity |].
  subst k2. destruct (String.eqb k1 k); [eauto | exact IH].
Qed.

(** Subscripting an object agrees with subscripting the value it denotes. *)
Lemma getitem_reify n (base h : heap) r v k :
  base ⊆ h -> reify n base r = Some v ->
  match Py.getitem v k with
  | Ok x => exists c, Store.getitem r k h = (Ok c, h) /\ reify n base c = Some x
  | Raise e => Store.getitem r k h = (Raise e, h)
  end.
Proof.
  intros Hh Hr. destruct v as [s|z|b|xs|itsv].
  1-4: destruct r as [s'|z'|b'|l]; simpl in *; try discriminate; try reflexivity;
       destruct n as [|n]; [discriminate |]; simpl in Hr;
       destruct (base !! l) as [[its|ys]|] eqn:Hl; try discriminate;
       [destruct (mapM _ its); discriminate |];
       now rewrite (lookup_weaken _ _ _ _ Hl Hh).
  apply reify_dict_inv in Hr as (l & its & -> & Hl & Hits).
  simpl. rewrite (lookup_weaken _ _ _ _ Hl Hh).
  pose proof (items_denote_get _ _ _ _ k Hits) as Hget.
  destruct (dict_get its k) as [c|].
  - destruct Hget as (x & -> & Hc). eauto.
  - now rewrite Hget.
Qed.

Lemma items_reify n (base h : heap) r itsv :
  base ⊆ h -> reify n base r = Some (VDict itsv) ->
  exists its, Store.items r h = (Ok its, h) /\ items_denote n base its itsv.
Proof.
  intros Hh Hr. apply reify_dict_inv in Hr as (l & its & -> & Hl & Hits).
  exists its. simpl. now rewrite (lookup_weaken _ _ _ _ Hl Hh).
Qed.

End Reify.

(** ** The run over the store *)

(** Name the location, the object and the store of the allocation that has
    just been run. *)
Tactic Notation "name_alloc" ident(l) ident(o) ident(h') :=
  cbv beta;
  match goal with
  | |- context [<[fresh (dom ?h) := ?ob]> ?h] =>
      set (l := fresh (dom h)); set (o := ob); set (h' := <[l := o]> h)
  end.

Section Loops.
Import Py Store Closed Frame.

Lemma sbind_ok {A B : Type} (m : M A) (k : A -> M B) (h h' : heap) a :
  m h = (Ok a, h') -> sbind m k h = k a h'.
Proof. unfold sbind. now intros ->. Qed.

Lemma sbind_raise {A B : Type} (m : M A) (k : A -> M B) (h h' : heap) e :
  m h = (Raise e, h') -> sbind m k h = (Raise e, h').
Proof. unfold sbind. now intros ->. Qed.

Lemma alloc_fresh (h : heap) : h !! fresh (dom h) = None.
Proof. apply not_elem_of_dom, is_fresh. Qed.

Lemma alloc_extends (h : heap) o : h ⊆ <[fresh (dom h) := o]> h.
Proof. apply insert_subseteq, alloc_fresh. Qed.

Variables (base : heap) (n : nat) (lt : loc).
Hypothesis Hbase_lt : base !! lt = None.

Lemma loop_inv_base h accv : loop_inv base n lt h accv -> base ⊆ delete lt h.
Proof.
  intros [Hb _]. rewrite <- (delete_id base lt Hbase_lt). now apply delete_mono.
Qed.

(** Appending a freshly built entry keeps the loop state. *)
Lemma loop_inv_append h accv acc l ev :
  loop_inv base n lt h accv ->
  h !! lt = Some (OList acc) ->
  l <> lt ->
  reify (3 + n) (delete lt h) (RObj l) = Some ev ->
  loop_inv base n lt (<[lt := OList (acc ++ [RObj l])]> h) (accv ++ [ev]).
Proof.
  intros (Hb & acc' & Hlt & Hacc) Hlt' Hne Hev.
  rewrite Hlt in Hlt'. injection Hlt' as <-.
  split.
  - apply insert_subseteq_r; assumption.
  - exists (acc' ++ [RObj l]). split; [apply lookup_insert_eq |].
    rewrite delete_insert_eq.
    apply Forall2_app; [exact Hacc |]. now constructor.
Qed.

(** Allocating keeps the loop state. *)
Lemma loop_inv_alloc h accv o :
  loop_inv base n lt h accv ->
  loop_inv base n lt (<[fresh (dom h) := o]> h) accv.
Proof.
  intros (Hb & acc & Hlt & Hacc).
  assert (fresh (dom h) <> lt) as Hne.
  { intros E. pose proof (alloc_fresh h) as Hf. rewrite E in Hf. congruence. }
  split; [etrans; [exact Hb | apply alloc_extends] |].
  exists acc. split; [now rewrite lookup_insert_ne |].
  eapply Forall2_impl; [exact Hacc |]. intros r v Hr.
  eapply reify_weaken; [reflexivity | | exact Hr].
  apply delete_mono, alloc_extends.
Qed.

Lemma for_each_spec entry body :
  body_spec base n lt entry body ->
  forall its itsv h accv,
    items_denote n base its itsv ->
    loop_inv base n lt h accv ->
    match map_result entry itsv with
    | Ok evs =>
        exists h', Store.for_each its body h = (Ok tt, h') /\
                   loop_inv base n lt h' (accv ++ evs)
    | Raise e =>
        exists h' accv', Store.for_each its body h = (Raise e, h') /\
                         loop_inv base n lt h' accv'
    end.
Proof.
  intros Hbody its itsv h accv Hits. revert h accv.
  induction Hits as [|[k r] [k' v] its itsv [Hk Hr] _ IH]; intros h accv Hinv; simpl.
  - exists h. rewrite app_nil_r. auto.
  - simpl in Hk, Hr. subst k'.
    specialize (Hbody h accv k r v Hinv Hr).
    destruct (entry (k, v)) as [ev|e]; simpl.
    + destruct Hbody as (h1 & Hrun & Hinv1).
      rewrite (sbind_ok _ _ _ _ _ Hrun).
      specialize (IH h1 (accv ++ [ev]) Hinv1).
      destruct (map_result entry itsv) as [evs|e]; simpl.
      * destruct IH as (h' & Hrun' & Hinv'). exists h'.
        rewrite <- app_assoc in Hinv'. auto.
      * exact IH.
    + destruct Hbody as (h1 & Hrun & Hinv1).
      rewrite (sbind_raise _ _ _ _ _ Hrun). eauto.
Qed.


Lemma alloc_run (o : obj) (h : heap) :
  alloc o h = (Ok (RObj (fresh (dom h))), <[fresh (dom h) := o]> h).
Proof. reflexivity. Qed.

Lemma getitem_run (h : heap) l its k r :
  h !! l = Some (ODict its) -> dict_get its k = Some r ->
  Store.getitem (RObj l) k h = (Ok r, h).
Proof. intros Hl Hk. simpl. now rewrite Hl, Hk. Qed.

Lemma append_run (h : heap) l xs x :
  h !! l = Some (OList xs) ->
  append (RObj l) x h = (Ok tt, <[l := OList (xs ++ [x])]> h).
Proof. intros Hl. simpl. now rewrite Hl. Qed.

Lemma reify_dict m (h : heap) l its itsv :
  h !! l = Some (ODict its) ->
  Forall2 (fun (kr : string * ref) (kv : string * value) =>
             pair (fst kr) <$> reify m h (snd kr) = Some kv) its itsv ->
  reify (S m) h (RObj l) = Some (VDict itsv).
Proof.
  intros Hl Hits. simpl. rewrite Hl.
  apply mapM_Some in Hits. now rewrite Hits.
Qed.

Lemma reify_list m (h : heap) l xs vs :
  h !! l = Some (OList xs) ->
  Forall2 (fun r v => reify m h r = Some v) xs vs ->
  reify (S m) h (RObj l) = Some (VList vs).
Proof.
  intros Hl Hxs. simpl. rewrite Hl.
  apply mapM_Some in Hxs. now rewrite Hxs.
Qed.

Lemma reify_item m (h : heap) (k : string) (r : ref) (v : value) :
  reify m h r = Some v ->
  pair (fst (k, r)) <$> reify m h (snd (k, r)) = Some (k, v).
Proof. simpl. now intros ->. Qed.

Variables (lm : loc) (mitems : list (string * ref)).
Hypothesis Hbase_lm : base !! lm = Some (ODict mitems).
Hypothesis Hmitems : dict_get mitems "tools" = Some (RObj lt).

Lemma active_body_spec :
  body_spec base n lt active_entry
    (fun '(name, spec) =>
       (category <- Store.getitem spec "category" ;;
        description <- Store.getitem spec "description" ;;
        input_schema <- Store.getitem spec "input_schema" ;;
        tool <- Store.alloc (Store.ODict (dict_display
          [ ("name", Store.RStr name);
            ("category", category);
            ("description", description);
            ("input_schema", input_schema) ])) ;;
        target <- Store.getitem (RObj lm) "tools" ;;
        Store.append target tool)%store).
Proof.
  intros h accv name spec specv Hinv Hspec.
  pose proof Hinv as (Hb & acc & Hlt & _).
  unfold active_entry.
  pose proof (getitem_reify n base h spec specv "category" Hb Hspec) as Hc.
  destruct (Py.getitem specv "category") as [cv|e]; cbn [bind];
    [destruct Hc as (c & Hc & Hcv); rewrite (sbind_ok _ _ _ _ _ Hc)
    | rewrite (sbind_raise _ _ _ _ _ Hc); eauto].
  pose proof (getitem_reify n base h spec specv "description" Hb Hspec) as Hd.
  destruct (Py.getitem specv "description") as [dv|e]; cbn [bind];
    [destruct Hd as (d & Hd & Hdv); rewrite (sbind_ok _ _ _ _ _ Hd)
    | rewrite (sbind_raise _ _ _ _ _ Hd); eauto].
  pose proof (getitem_reify n base h spec specv "input_schema" Hb Hspec) as Hs.
  destruct (Py.getitem specv "input_schema") as [sv|e]; cbn [bind];
    [destruct Hs as (s & Hs & Hsv); rewrite (sbind_ok _ _ _ _ _ Hs)
    | rewrite (sbind_raise _ _ _ _ _ Hs); eauto].
  rewrite (sbind_ok _ _ _ _ _ (alloc_run _ _)).
  set (l := fresh (dom h)). set (o := ODict _). set (h1 := <[l := o]> h).
  pose proof (loop_inv_alloc h accv o Hinv) as Hinv1. fold l h1 in Hinv1.
  pose proof Hinv1 as (Hb1 & acc1 & Hlt1 & _).
  rewrite (sbind_ok _ _ _ _ _
             (getitem_run h1 lm mitems "tools" _
                (lookup_weaken _ _ _ _ Hbase_lm Hb1) Hmitems)).
  rewrite (append_run _ _ _ _ Hlt1).
  eexists. split; [reflexivity |].
  assert (l <> lt) as Hne.
  { intros E. pose proof (alloc_fresh h) as Hf. fold l in Hf. congruence. }
  apply loop_inv_append; try assumption.
  pose proof (loop_inv_base h1 accv Hinv1) as Hsub.
  apply (reify_dict (2 + n) _ l (dict_display
          [ ("name", Store.RStr name); ("category", c);
            ("description", d); ("input_schema", s) ])).
  { rewrite lookup_delete_ne by congruence. apply lookup_insert_eq. }
  repeat constructor.
  all: apply reify_item; eapply reify_weaken; [| exact Hsub | eassumption]; lia.
Qed.


Lemma alias_body_spec :
  body_spec base n lt alias_entry
    (fun '(name, spec) =>
       (category <- Store.getitem spec "category" ;;
        description <- Store.getitem spec "description" ;;
        redirect_to <- Store.getitem spec "redirect_to" ;;
        properties <- Store.alloc (Store.ODict (dict_display [])) ;;
        input_schema <- Store.alloc (Store.ODict (dict_display
          [ ("type", Store.RStr "object");
            ("properties", properties) ])) ;;
        tool <- Store.alloc (Store.ODict (dict_display
          [ ("name", Store.RStr name);
            ("category", category);
            ("description", description);
            ("redirect_to", redirect_to);
            ("deprecated", Store.RBool true);
            ("input_schema", input_schema) ])) ;;
        target <- Store.getitem (RObj lm) "tools" ;;
        Store.append target tool)%store).
Proof.
  intros h accv name spec specv Hinv Hspec.
  pose proof Hinv as (Hb & acc & Hlt & _).
  unfold alias_entry.
  pose proof (getitem_reify n base h spec specv "category" Hb Hspec) as Hc.
  destruct (Py.getitem specv "category") as [cv|e]; cbn [bind];
    [destruct Hc as (c & Hc & Hcv); rewrite (sbind_ok _ _ _ _ _ Hc)
    | rewrite (sbind_raise _ _ _ _ _ Hc); eauto].
  pose proof (getitem_reify n base h spec specv "description" Hb Hspec) as Hd.
  destruct (Py.getitem specv "description") as [dv|e]; cbn [bind];
    [destruct Hd as (d & Hd & Hdv); rewrite (sbind_ok _ _ _ _ _ Hd)
    | rewrite (sbind_raise _ _ _ _ _ Hd); eauto].
  pose proof (getitem_reify n base h spec specv "redirect_to" Hb Hspec) as Hr.
  destruct (Py.getitem specv "redirect_to") as [rv|e]; cbn [bind];
    [destruct Hr as (r & Hr & Hrv); rewrite (sbind_ok _ _ _ _ _ Hr)
    | rewrite (sbind_raise _ _ _ _ _ Hr); eauto].
  rewrite (sbind_ok _ _ _ _ _ (alloc_run _ _)).
  set (lp := fresh (dom h)). set (hp := <[lp := _]> h).
  rewrite (sbind_ok _ _ _ _ _ (alloc_run _ _)).
  set (ls := fresh (dom hp)). set (hs := <[ls := _]> hp).
  rewrite (sbind_ok _ _ _ _ _ (alloc_run _ _)).
  set (l := fresh (dom hs)). set (h1 := <[l := _]> hs).
  pose proof (loop_inv_alloc h accv _ Hinv : loop_inv base n lt hp accv) as Hinvp.
  pose proof (loop_inv_alloc hp accv _ Hinvp : loop_inv base n lt hs accv) as Hinvs.
  pose proof (loop_inv_alloc hs accv _ Hinvs : loop_inv base n lt h1 accv) as Hinv1.
  pose proof Hinv1 as (Hb1 & acc1 & Hlt1 & _).
  rewrite (sbind_ok _ _ _ _ _
             (getitem_run h1 lm mitems "tools" _
                (lookup_weaken _ _ _ _ Hbase_lm Hb1) Hmitems)).
  rewrite (append_run _ _ _ _ Hlt1).
  eexists. split; [reflexivity |].
  assert (forall (g : heap), is_Some (g !! lt) -> fresh (dom g) <> lt) as Hfresh.
  { intros g [x Hx] E. pose proof (alloc_fresh g) as Hf. rewrite E in Hf. congruence. }
  assert (lp <> lt) as Hnp by (apply Hfresh; eauto).
  assert (ls <> lt) as Hns.
  { apply Hfresh. destruct Hinvp as (_ & ? & ? & _). eauto. }
  assert (l <> lt) as Hne.
  { apply Hfresh. destruct Hinvs as (_ & ? & ? & _). eauto. }
  assert (hp !! lp = Some (ODict [])) as Hlp by apply lookup_insert_eq.
  assert (hs !! ls = Some (ODict [("type", RStr "object"); ("properties", RObj lp)]))
    as Hls by apply lookup_insert_eq.
  assert (hp ⊆ hs) as Hps by apply alloc_extends.
  assert (hs ⊆ h1) as Hs1 by apply alloc_extends.
  apply loop_inv_append; try assumption.
  pose proof (loop_inv_base h1 accv Hinv1) as Hsub.
  apply (reify_dict (2 + n) _ l (dict_display
          [ ("name", Store.RStr name); ("category", c);
            ("description", d); ("redirect_to", r);
            ("deprecated", Store.RBool true); ("input_schema", RObj ls) ])).
  { rewrite lookup_delete_ne by congruence. apply lookup_insert_eq. }
  repeat constructor.
  1-3: apply reify_item; eapply reify_weaken; [| exact Hsub | eassumption]; lia.
  apply reify_item.
  apply (reify_dict (1 + n) _ ls [("type", RStr "object"); ("properties", RObj lp)]).
  { rewrite lookup_delete_ne by congruence.
    eapply lookup_weaken; [exact Hls | exact Hs1]. }
  repeat constructor.
  apply reify_item. apply (reify_dict n _ lp []); [| constructor].
  rewrite lookup_delete_ne by congruence.
  eapply lookup_weaken; [exact Hlp |]. etrans; eassumption.
Qed.

End Loops.

Section Adequacy.
Import Py Store Closed Frame.

Lemma fresh_other (g : heap) (l : loc) : is_Some (g !! l) -> fresh (dom g) <> l.
Proof.
  intros [x Hx] E. pose proof (alloc_fresh g) as Hf. rewrite E in Hf. congruence.
Qed.

Lemma generate_manifest_store_adequate n (h : heap) T A tv av :
  reify n h T = Some (VDict tv) ->
  reify n h A = Some (VDict av) ->
  match compile tv av with
  | Ok doc =>
      exists l h',
        GenerateManifestV2.generate_manifest_store T A h = (Ok (RObj l), h') /\
        h ⊆ h' /\ h !! l = None /\
        reify (5 + n) h' (RObj l) = Some doc
  | Raise e =>
      exists h',
        GenerateManifestV2.generate_manifest_store T A h = (Raise e, h') /\
        h ⊆ h'
  end.
Proof.
  intros HT HA.
  unfold GenerateManifestV2.generate_manifest_store, compile, dict_items.
  rewrite (sbind_ok _ _ _ _ _ (alloc_run _ _)). name_alloc la oa ha.
  rewrite (sbind_ok _ _ _ _ _ (alloc_run _ _)). name_alloc lu ou hu.
  rewrite (sbind_ok _ _ _ _ _ (alloc_run _ _)). name_alloc lt ot ht.
  rewrite (sbind_ok _ _ _ _ _ (alloc_run _ _)). name_alloc lm om h1.
  match goal with om := ODict ?its |- _ => set (mitems := its) in om end.
  subst ot om.
  set (base := <[lm := ODict mitems]> hu).
  assert (h ⊆ ha) as Hha by apply alloc_extends.
  assert (ha ⊆ hu) as Hau by apply alloc_extends.
  assert (hu ⊆ ht) as Hut by apply alloc_extends.
  assert (ha !! la = Some oa) as Hla by apply lookup_insert_eq.
  assert (hu !! lu = Some ou) as Hlu by apply lookup_insert_eq.
  assert (hu !! lt = None) as Hlt_hu by apply alloc_fresh.
  assert (ht !! lm = None) as Hlm_ht by apply alloc_fresh.
  assert (lm <> lt) as Hne by (apply fresh_other; unfold ht; rewrite lookup_insert_eq; eauto).
  assert (hu !! lm = None) as Hlm_hu.
  { destruct (hu !! lm) eqn:E; [| reflexivity].
    rewrite (lookup_weaken _ _ _ _ E Hut) in Hlm_ht. discriminate. }
  assert (base !! lt = None) as Hbase_lt.
  { unfold base. now rewrite lookup_insert_ne. }
  assert (base !! lm = Some (ODict mitems)) as Hbase_lm by apply lookup_insert_eq.
  assert (dict_get mitems "tools" = Some (RObj lt)) as Hmitems by reflexivity.
  assert (hu ⊆ base) as Hub by (apply insert_subseteq; exact Hlm_hu).
  assert (h ⊆ base) as Hhb by (etrans; [exact Hha |]; etrans; eassumption).
  assert (base ⊆ h1) as Hb1 by (apply insert_mono; exact Hut).
  assert (loop_inv base n lt h1 []) as Hinv1.
  { split; [exact Hb1 |]. exists []. split; [| constructor].
    unfold h1, ht. rewrite lookup_insert_ne by exact Hne. apply lookup_insert_eq. }
  assert (reify n base T = Some (VDict tv)) as HTb
    by (eapply reify_weaken; [reflexivity | exact Hhb | exact HT]).
  assert (reify n base A = Some (VDict av)) as HAb
    by (eapply reify_weaken; [reflexivity | exact Hhb | exact HA]).
  assert (h !! lm = None) as Hlm_h.
  { destruct (h !! lm) eqn:E; [| reflexivity].
    rewrite (lookup_weaken _ _ _ _ E (transitivity Hha Hau)) in Hlm_hu. discriminate. }
  clearbody la lu lt lm.
  destruct (items_reify n base h1 T tv Hb1 HTb) as (its & Hrun & Hits).
  rewrite (sbind_ok _ _ _ _ _ Hrun). clear Hrun.
  pose proof (for_each_spec base n lt active_entry _
                (active_body_spec base n lt Hbase_lt lm mitems Hbase_lm Hmitems)
                its tv h1 [] Hits Hinv1) as Hloop.
  destruct (map_result active_entry tv) as [active|e]; cbn [bind].
  2:{ destruct Hloop as (h2 & accv & Hrun & Hb2 & _).
      rewrite (sbind_raise _ _ _ _ _ Hrun). exists h2.
      split; [reflexivity | etrans; eassumption]. }
  destruct Hloop as (h2 & Hrun & Hinv2). cbn [app] in Hinv2.
  rewrite (sbind_ok _ _ _ _ _ Hrun). clear Hrun.
  pose proof Hinv2 as (Hb2 & _).
  destruct (items_reify n base h2 A av Hb2 HAb) as (its' & Hrun & Hits').
  rewrite (sbind_ok _ _ _ _ _ Hrun). clear Hrun.
  pose proof (for_each_spec base n lt alias_entry _
                (alias_body_spec base n lt Hbase_lt lm mitems Hbase_lm Hmitems)
                its' av h2 active Hits' Hinv2) as Hloop.
  destruct (map_result alias_entry av) as [deprecated|e]; cbn [bind].
  2:{ destruct Hloop as (h3 & accv & Hrun & Hb3 & _).
      rewrite (sbind_raise _ _ _ _ _ Hrun). exists h3.
      split; [reflexivity | etrans; eassumption]. }
  destruct Hloop as (h3 & Hrun & Hinv3).
  rewrite (sbind_ok _ _ _ _ _ Hrun). clear Hrun.
  destruct Hinv3 as (Hb3 & acc & Hlt3 & Hacc).
  exists lm, h3. split; [reflexivity |].
  split; [etrans; eassumption |]. split; [exact Hlm_h |].
  apply (reify_dict (4 + n) h3 lm mitems).
  { eapply lookup_weaken; [exact Hbase_lm | exact Hb3]. }
  assert (reify (4 + n) h3 (RObj lt) = Some (VList (active ++ deprecated))) as Htl.
  { apply (reify_list (3 + n) h3 lt acc); [exact Hlt3 |].
    eapply Forall2_impl; [exact Hacc |]. intros r v Hr.
    eapply reify_weaken; [reflexivity | apply delete_subseteq | exact Hr]. }
  assert (h3 !! la = Some oa) as Hla3.
  { eapply lookup_weaken; [exact Hla |].
    etrans; [exact Hau |]. etrans; eassumption. }
  assert (h3 !! lu = Some ou) as Hlu3.
  { eapply lookup_weaken; [exact Hlu |]. etrans; eassumption. }
  set (entries := VList (active ++ deprecated)) in *. clearbody entries.
  unfold mitems.
  match goal with
  | |- Forall2 ?R ?its ?itsv =>
      let its' := eval vm_compute in its in
      let itsv' := eval vm_compute in itsv in
      change (Forall2 R its' itsv')
  end.
  repeat constructor.
  - apply reify_item. apply (reify_dict (3 + n) h3 la _ _ Hla3).
    repeat constructor.
  - apply reify_item. apply (reify_dict (3 + n) h3 lu _ _ Hlu3).
    repeat constructor.
  - apply reify_item. exact Htl.
Qed.

End Adequacy.

(** ** Determinism and absence of side effects *)

Section Determinism.
Import Py Store Closed Frame Outcome Scripts.

(** The approved script has the same function body over the store too. *)
Lemma generate_manifest_store_approved :
  GenerateManifestV2Approved.generate_manifest_store =
  GenerateManifestV2.generate_manifest_store.
Proof. reflexivity. Qed.

(** A run over the store leaves every existing object as it was and yields
    what the value-level function yields on the values the registries
    denote. *)
Lemma store_run_denotes gm n (h : heap) T A tools aliases :
  In gm store_compilers ->
  reify n h T = Some (VDict tools) ->
  reify n h A = Some (VDict aliases) ->
  h ⊆ snd (gm T A h) /\
  denotes (5 + n) (gm T A h)
    (GenerateManifestV2.generate_manifest_on tools aliases).
Proof.
  intros Hgm HT HA.
  assert (gm = GenerateManifestV2.generate_manifest_store) as ->.
  { destruct Hgm as [<-|[<-|[]]]; [reflexivity | apply generate_manifest_store_approved]. }
  rewrite generate_manifest_on_closed.
  pose proof (generate_manifest_store_adequate n h T A tools aliases HT HA) as H.
  destruct (compile tools aliases) as [doc|e].
  - destruct H as (l & h' & -> & Hsub & _ & Hdoc). split; assumption.
  - destruct H as (h' & -> & Hsub). split; [assumption | reflexivity].
Qed.

Lemma denotes_agree n out out' r :
  denotes n out r -> denotes n out' r -> agree n out out'.
Proof.
  destruct out as [[d|e] h], out' as [[d'|e'] h'], r as [doc|x]; simpl;
    try contradiction; try congruence.
  intros ? ?. now exists doc.
Qed.

(** C8 -- determinism and absence of side effects.  [generate_manifest]
    leaves every object that existed before the call as it was, the
    registries included, and what it returns is the value-level function of
    what the registries denote.  Hence two calls on registries denoting the
    same values agree -- the same document or the same exception -- whether
    they run in different stores or one after the other in the same store. *)
Theorem generate_manifest_deterministic gm n (h h' : heap) T A T' A' tools aliases :
  In gm store_compilers ->
  reify n h T = Some (VDict tools) ->
  reify n h A = Some (VDict aliases) ->
  reify n h' T' = Some (VDict tools) ->
  reify n h' A' = Some (VDict aliases) ->
  let out := gm T A h in
  let out' := gm T' A' h' in
  let again := gm T A (snd out) in
  h ⊆ snd out /\
  h' ⊆ snd out' /\
  snd out ⊆ snd again /\
  denotes (5 + n) out (GenerateManifestV2.generate_manifest_on tools aliases) /\
  agree (5 + n) out out' /\
  agree (5 + n) out again.
Proof.
  intros Hgm HT HA HT' HA' out out' again.
  destruct (store_run_denotes gm n h T A tools aliases Hgm HT HA) as [Hsub Hden].
  destruct (store_run_denotes gm n h' T' A' tools aliases Hgm HT' HA')
    as [Hsub' Hden'].
  fold out in Hsub, Hden. fold out' in Hsub', Hden'.
  destruct (store_run_denotes gm n (snd out) T A tools aliases Hgm)
    as [Hsub2 Hden2].
  { eapply reify_weaken; [reflexivity | exact Hsub | exact HT]. }
  { eapply reify_weaken; [reflexivity | exact Hsub | exact HA]. }
  fold again in Hsub2, Hden2.
  repeat split; try assumption.
  - eapply denotes_agree; eassumption.
  - eapply denotes_agree; eassumption.
Qed.

Lemma generate_manifest_deterministic_witness :
  let out := GenerateManifestV2.generate_manifest_store
               Examples.loaded_tools Examples.loaded_aliases Examples.loaded_heap in
  let out' := GenerateManifestV2.generate_manifest_store
                Examples.reloaded_tools Examples.reloaded_aliases
                Examples.reloaded_heap in
  let again := GenerateManifestV2.generate_manifest_store
                 Examples.loaded_tools Examples.loaded_aliases (snd out) in
  Examples.loaded_heap ⊆ snd out /\
  Examples.reloaded_heap ⊆ snd out' /\
  snd out ⊆ snd again /\
  denotes 10 out
    (GenerateManifestV2.generate_manifest_on Examples.one_tool Examples.one_alias) /\
  agree 10 out out' /\
  agree 10 out again.
Proof.
  apply (generate_manifest_deterministic
           GenerateManifestV2.generate_manifest_store 5
           Examples.loaded_heap Examples.reloaded_heap
           Examples.loaded_tools Examples.loaded_aliases
           Examples.reloaded_tools Examples.reloaded_aliases
           Examples.one_tool Examples.one_alias).
  - left; reflexivity.
  - vm_compute; reflexivity.
  - vm_compute; reflexivity.
  - vm_compute; reflexivity.
  - vm_compute; reflexivity.
Defined.

End Determinism.

(** ** Evaluating the registries *)

Section Loading.
Import Py Store Closed Frame Outcome Scripts.

Lemma load_VList xs : load (VList xs) = (rs <- load_list xs ;; alloc (OList rs))%store.
Proof. reflexivity. Qed.
Lemma load_VDict its : load (VDict its) = (rs <- load_items its ;; alloc (ODict rs))%store.
Proof. reflexivity. Qed.

Section ValueInd.
Variable P : value -> Prop.
Hypothesis HStr : forall s, P (VStr s).
Hypothesis HInt : forall z, P (VInt z).
Hypothesis HBool : forall b, P (VBool b).
Hypothesis HList : forall xs, Forall P xs -> P (VList xs).
Hypothesis HDict : forall its, Forall (fun kv => P (snd kv)) its -> P (VDict its).

Lemma value_nested_ind : forall v, P v.
Proof.
  fix IH 1. intros [s|z|b|xs|its].
  - apply HStr.
  - apply HInt.
  - apply HBool.
  - apply HList. induction xs as [|x xs IHxs]; constructor; [apply IH | exact IHxs].
  - apply HDict. induction its as [|[k x] its IHits]; constructor; [apply IH | exact IHits].
Qed.
End ValueInd.

Lemma load_reify v : loads v.
Proof.
  induction v as [s|z|b|xs IH|its IH] using value_nested_ind; intros h.
  - exists (RStr s), h. repeat split; auto. intros [|m] _; reflexivity.
  - exists (RInt z), h. repeat split; auto. intros [|m] _; reflexivity.
  - exists (RBool b), h. repeat split; auto. intros [|m] _; reflexivity.
  - assert (exists rs h', load_list xs h = (Ok rs, h') /\ h ⊆ h' /\
              forall m, list_max (map depth xs) <= m ->
                        Forall2 (fun r v => reify m h' r = Some v) rs xs)
      as (rs & h' & Hrun & Hsub & Hrs).
    { clear -IH. revert h. induction IH as [|x xs Hx _ IHxs]; intros h.
      - exists [], h. repeat split; auto.
      - destruct (Hx h) as (r & h1 & Hr & Hs1 & Hv).
        destruct (IHxs h1) as (rs & h2 & Hrs & Hs2 & Hvs).
        exists (r :: rs), h2. split; [| split].
        + simpl. unfold sbind at 1. rewrite Hr.
          fold load_list. unfold sbind at 1. rewrite Hrs. reflexivity.
        + etrans; eassumption.
        + intros m Hm. simpl in Hm. constructor.
          * eapply reify_weaken; [reflexivity | exact Hs2 | apply Hv; lia].
          * apply Hvs. lia. }
    rewrite load_VList. unfold sbind. rewrite Hrun.
    eexists. eexists. split; [reflexivity |]. split.
    + etrans; [exact Hsub | apply insert_subseteq, not_elem_of_dom, is_fresh].
    + intros [|m] Hm; simpl in Hm; [lia |].
      simpl. rewrite lookup_insert_eq.
      assert (Forall2 (fun r v => reify m (<[fresh (dom h') := OList rs]> h') r = Some v) rs xs) as HF.
      { eapply Forall2_impl; [apply (Hrs m); lia |]. intros r v Hr.
        eapply reify_weaken; [reflexivity | | exact Hr].
        apply insert_subseteq, not_elem_of_dom, is_fresh. }
      apply mapM_Some in HF. now rewrite HF.
  - assert (exists rs h', load_items its h = (Ok rs, h') /\ h ⊆ h' /\
              forall m, list_max (map (fun kv => depth (snd kv)) its) <= m ->
                        Forall2 (fun (kr : string * ref) (kv : string * value) =>
                                   pair (fst kr) <$> reify m h' (snd kr) = Some kv)
                                rs its)
      as (rs & h' & Hrun & Hsub & Hrs).
    { clear -IH. revert h. induction IH as [|[k x] its Hx _ IHits]; intros h.
      - exists [], h. repeat split; auto.
      - destruct (Hx h) as (r & h1 & Hr & Hs1 & Hv).
        destruct (IHits h1) as (rs & h2 & Hrs & Hs2 & Hvs).
        exists ((k, r) :: rs), h2. split; [| split].
        + simpl. unfold sbind at 1. simpl in Hr. rewrite Hr.
          fold load_items. unfold sbind at 1. rewrite Hrs. reflexivity.
        + etrans; eassumption.
        + intros m Hm. simpl in Hm. constructor.
          * simpl. erewrite reify_weaken; [reflexivity | reflexivity | exact Hs2 |].
            apply Hv. simpl. lia.
          * apply Hvs. lia. }
    rewrite load_VDict. unfold sbind. rewrite Hrun.
    eexists. eexists. split; [reflexivity |]. split.
    + etrans; [exact Hsub | apply insert_subseteq, not_elem_of_dom, is_fresh].
    + intros [|m] Hm; simpl in Hm; [lia |].
      simpl. rewrite lookup_insert_eq.
      assert (Forall2 (fun (kr : string * ref) (kv : string * value) =>
                         pair (fst kr) <$> reify m (<[fresh (dom h') := ODict rs]> h') (snd kr) = Some kv)
                      rs its) as HF.
      { eapply Forall2_impl; [apply (Hrs m); lia |]. intros [k r] kv Hr.
        simpl in *. destruct (reify m h' r) as [w|] eqn:E; [| discriminate].
        erewrite reify_weaken; [exact Hr | reflexivity | | exact E].
        apply insert_subseteq, not_elem_of_dom, is_fresh. }
      apply mapM_Some in HF. now rewrite HF.
Qed.

(** Evaluating two registries and calling [generate_manifest] yields what
    the value-level function yields on them, from any store. *)
Lemma run_after_load gm (tools aliases : dict) (h : heap) :
  In gm store_compilers ->
  let out := (t <- load (VDict tools) ;; a <- load (VDict aliases) ;; gm t a)%store h in
  h ⊆ snd out /\
  denotes (5 + Nat.max (depth (VDict tools)) (depth (VDict aliases))) out
    (GenerateManifestV2.generate_manifest_on tools aliases).
Proof.
  intros Hgm out. subst out.
  destruct (load_reify (VDict tools) h) as (t & h1 & Ht & Hs1 & Htv).
  destruct (load_reify (VDict aliases) h1) as (a & h2 & Ha & Hs2 & Hav).
  rewrite (sbind_ok _ _ _ _ _ Ht), (sbind_ok _ _ _ _ _ Ha).
  set (n := Nat.max _ _).
  destruct (store_run_denotes gm n h2 t a tools aliases Hgm) as [Hs3 Hden].
  - eapply reify_weaken; [reflexivity | exact Hs2 | apply Htv; lia].
  - apply Hav; lia.
  - split; [| exact Hden]. etrans; [exact Hs1 |]. etrans; eassumption.
Qed.

(** The built-in registries nest six levels deep, the alias registries two. *)
Lemma builtin_depth :
  depth (VDict GenerateManifestV2.TOOLS) = 6 /\
  depth (VDict GenerateManifestV2.DEPRECATED_ALIASES) = 2 /\
  depth (VDict GenerateManifestV2Approved.TOOLS) = 6 /\
  depth (VDict GenerateManifestV2Approved.DEPRECATED_ALIASES) = 2.
Proof. repeat split; vm_compute; reflexivity. Qed.

(** Each script, run from the empty store, returns a document that denotes
    the value-level result on its built-in registries. *)
Lemma main_denotes :
  denotes 11 (GenerateManifestV2.main ∅) GenerateManifestV2.generate_manifest /\
  denotes 11 (GenerateManifestV2Approved.main ∅)
    GenerateManifestV2Approved.generate_manifest.
Proof.
  destruct builtin_depth as (H1 & H2 & H3 & H4).
  split.
  - pose proof (run_after_load GenerateManifestV2.generate_manifest_store
             GenerateManifestV2.TOOLS GenerateManifestV2.DEPRECATED_ALIASES ∅
             (or_introl eq_refl)) as [_ H].
    rewrite H1, H2 in H. exact H.
  - pose proof (run_after_load GenerateManifestV2Approved.generate_manifest_store
             GenerateManifestV2Approved.TOOLS
             GenerateManifestV2Approved.DEPRECATED_ALIASES ∅
             (or_intror (or_introl eq_refl))) as [_ H].
    rewrite H3, H4 in H. exact H.
Qed.

End Loading.
